(** * PhiFlow backend abstraction: [phi/math/backend/_backend.py]

    A shallow embedding of the [Backend] base class: the scoped backend
    stack ([__enter__] / [__exit__]), the dtype promotion policy
    ([combine_types]), [auto_cast], the default elementwise binary methods
    and the abstract operations that raise [NotImplementedError].

    Python exceptions are modelled by an error monad [Result]; the
    process-wide state (the list [_DEFAULT] and the precision setting) by
    a record [Process] that is passed explicitly. *)

From Stdlib Require Import List String ZArith Bool Lia Permutation QArith Qabs.
Import ListNotations.
Local Open Scope string_scope.
Local Open Scope Z_scope.

(** ** Data model *)

(** The [kind] of a [DType] is a Python type object.  The four numeric kinds
    are [bool], [int], [float] and [complex]; [py_other] stands for any other
    type object (for instance [str] or [object]), identified by its name. *)
Inductive Kind : Type :=
| py_bool
| py_int
| py_float
| py_complex
| py_other (name : string).

Definition Kind_eqb (a b : Kind) : bool :=
  match a, b with
  | py_bool, py_bool => true
  | py_int, py_int => true
  | py_float, py_float => true
  | py_complex, py_complex => true
  | py_other n, py_other m => String.eqb n m
  | _, _ => false
  end.

(** Modelled from the spec: the module [_dtype.py] that declares [DType] is
    not part of the sources; the specification describes a [DType] as a
    scalar kind together with an integer bit width. *)
Record DType : Type := mkDType { kind : Kind; bits : Z }.

(** [k in (k1, k2, ...)] *)
Definition kind_in (k : Kind) (ks : list Kind) : bool :=
  existsb (Kind_eqb k) ks.

(** A backend object: the base class stores only [_name]. *)
Record Backend : Type := mkBackend { _name : string }.

(** ** Exceptions *)

Inductive ExcType : Type :=
| IndexError
| ValueError
| NotImplementedError.

(** Positional arguments an exception is constructed with. *)
Inductive ExcArg : Type :=
| ArgBackend (b : Backend)
| ArgDTypes (dtypes : list DType)
| ArgStr (s : string).

Record Exception : Type := mkException { exc_type : ExcType; exc_args : list ExcArg }.

Inductive Result (A : Type) : Type :=
| Return (a : A)
| Raise (e : Exception).
Arguments Return {A} a.
Arguments Raise {A} e.

Definition bind {A B : Type} (c : Result A) (k : A -> Result B) : Result B :=
  match c with
  | Return a => k a
  | Raise e => Raise e
  end.

Notation "x <- c ;; k" := (bind c (fun x => k))
  (at level 61, c at next level, right associativity).

(** A list comprehension [[f(t) for t in ts]] whose body may raise. *)
Fixpoint mapM {A B : Type} (f : A -> Result B) (ts : list A) : Result (list B) :=
  match ts with
  | [] => Return []
  | t :: ts' => y <- f t ;; ys <- mapM f ts' ;; Return (y :: ys)
  end.

(** ** Process-wide state *)

(** Modelled from the spec: [_DEFAULT] and [get_precision] live in the
    package [__init__], which is not part of the sources.  [_DEFAULT] is the
    stack of active backends (a Python list, top at the end); the precision
    setting is a process-wide integer, 32 by default. *)
Record Process : Type := mkProcess { _DEFAULT : list Backend; global_precision : Z }.

Definition get_precision (p : Process) : Z := global_precision p.

(** ** [Backend.__init__], [__enter__], [__exit__] *)

Definition Backend__init__ (name : string) : Result Backend :=
  Return (mkBackend name).

Definition name (self : Backend) : string := _name self.

Definition __str__ (self : Backend) : string := name self.

(** [_DEFAULT.append(self)] *)
Definition __enter__ (self : Backend) (p : Process) : Process :=
  mkProcess (_DEFAULT p ++ [self]) (global_precision p).

(** [list.pop(-1)]: removes the last element, [IndexError] on an empty list. *)
Definition pop_last {A : Type} (l : list A) : Result (A * list A) :=
  match rev l with
  | [] => Raise (mkException IndexError [ArgStr "pop from empty list"])
  | x :: r => Return (x, rev r)
  end.

(** [_DEFAULT.pop(-1)]; the three exception arguments are ignored and the
    method returns [None], so an exception of the body propagates. *)
Definition __exit__ (self : Backend)
    (exc_type : option ExcType) (exc_val : option Exception) (exc_tb : option string)
    (p : Process) : Result Process :=
  xr <- pop_last (_DEFAULT p) ;;
  Return (mkProcess (snd xr) (global_precision p)).

(** ** Precision and canonical types *)

Definition precision (self : Backend) (p : Process) : Z := get_precision p.

Definition float_type (self : Backend) (p : Process) : DType :=
  mkDType py_float (precision self p).

Definition complex_type (self : Backend) (p : Process) : DType :=
  mkDType py_complex (Z.max 64 (precision self p)).

(** ** [combine_types] *)

(** Python's [max(iterable, key=...)]: the running maximum is replaced only by
    a strictly greater key, so the first maximal element is returned. *)
Fixpoint py_max_from {A : Type} (key : A -> Z) (cur : A) (rest : list A) : A :=
  match rest with
  | [] => cur
  | x :: rest' => if key x >? key cur then py_max_from key x rest'
                  else py_max_from key cur rest'
  end.

Definition py_max {A : Type} (key : A -> Z) (l : list A) : Result A :=
  match l with
  | [] => Raise (mkException ValueError [ArgStr "max() arg is an empty sequence"])
  | x :: rest => Return (py_max_from key x rest)
  end.

(** [dtypes[0]] *)
Definition index0 {A : Type} (l : list A) : Result A :=
  match l with
  | [] => Raise (mkException IndexError [ArgStr "tuple index out of range"])
  | x :: _ => Return x
  end.

Definition combine_types (self : Backend) (p : Process) (dtypes : list DType)
  : Result DType :=
  if forallb (fun dt => Kind_eqb (kind dt) py_bool) dtypes then
    index0 dtypes
  else if forallb (fun dt => kind_in (kind dt) [py_bool; py_int]) dtypes then
    largest <- py_max bits dtypes ;;
    Return largest
  else if forallb (fun dt => kind_in (kind dt) [py_float; py_int; py_bool]) dtypes then
    Return (float_type self p)
  else if forallb (fun dt => kind_in (kind dt) [py_complex; py_float; py_int; py_bool]) dtypes then
    Return (complex_type self p)
  else
    Raise (mkException ValueError [ArgDTypes dtypes]).

(** ** Regrouping the operands *)

(** Combining the operands group by group and then combining the results. *)
Definition combine_grouped (self : Backend) (p : Process) (groups : list (list DType))
  : Result DType :=
  parts <- mapM (combine_types self p) groups ;;
  combine_types self p parts.

(** How far a kind is from the exact kinds: 0 for bool and int, 1 for float,
    2 for complex; a list has the level of its most inexact operand. *)
Definition inexactness (k : Kind) : nat :=
  match k with
  | py_float => 1
  | py_complex => 2
  | _ => 0
  end.

Definition level (l : list DType) : nat :=
  fold_right (fun dt n => Nat.max (inexactness (kind dt)) n) 0%nat l.

Definition numeric (dt : DType) : Prop :=
  In (kind dt) [py_bool; py_int; py_float; py_complex].

(** ** Abstract operations *)

(** The methods of [Backend] whose body is a bare [raise NotImplementedError]. *)
Inductive AbstractOp : Type :=
| op_is_tensor | op_as_tensor | op_is_available | op_numpy | op_copy
| op_transpose | op_equal | op_random_uniform | op_random_normal | op_stack
| op_concat | op_pad | op_reshape | op_sum | op_prod | op_divide_no_nan
| op_where | op_nonzero | op_mean | op_py_func | op_range | op_zeros
| op_zeros_like | op_ones | op_ones_like | op_meshgrid | op_dot | op_matmul
| op_einsum | op_while_loop | op_abs | op_sign | op_round | op_ceil | op_floor
| op_max | op_min | op_maximum | op_minimum | op_clip
| op_with_custom_gradient | op_sqrt | op_exp | op_conv | op_expand_dims
| op_shape | op_staticshape | op_to_float | op_to_int | op_to_complex
| op_gather | op_gather_nd | op_std | op_boolean_mask | op_isfinite
| op_scatter | op_any | op_all | op_fft | op_ifft | op_imag | op_real
| op_cast | op_sin | op_cos | op_dtype | op_tile | op_sparse_tensor
| op_coordinates | op_conjugate_gradient.

Definition op_name (op : AbstractOp) : string :=
  match op with
  | op_is_tensor => "is_tensor" | op_as_tensor => "as_tensor"
  | op_is_available => "is_available" | op_numpy => "numpy"
  | op_copy => "copy" | op_transpose => "transpose" | op_equal => "equal"
  | op_random_uniform => "random_uniform" | op_random_normal => "random_normal"
  | op_stack => "stack" | op_concat => "concat" | op_pad => "pad"
  | op_reshape => "reshape" | op_sum => "sum" | op_prod => "prod"
  | op_divide_no_nan => "divide_no_nan" | op_where => "where"
  | op_nonzero => "nonzero" | op_mean => "mean" | op_py_func => "py_func"
  | op_range => "range" | op_zeros => "zeros" | op_zeros_like => "zeros_like"
  | op_ones => "ones" | op_ones_like => "ones_like" | op_meshgrid => "meshgrid"
  | op_dot => "dot" | op_matmul => "matmul" | op_einsum => "einsum"
  | op_while_loop => "while_loop" | op_abs => "abs" | op_sign => "sign"
  | op_round => "round" | op_ceil => "ceil" | op_floor => "floor"
  | op_max => "max" | op_min => "min" | op_maximum => "maximum"
  | op_minimum => "minimum" | op_clip => "clip"
  | op_with_custom_gradient => "with_custom_gradient" | op_sqrt => "sqrt"
  | op_exp => "exp" | op_conv => "conv" | op_expand_dims => "expand_dims"
  | op_shape => "shape" | op_staticshape => "staticshape"
  | op_to_float => "to_float" | op_to_int => "to_int"
  | op_to_complex => "to_complex" | op_gather => "gather"
  | op_gather_nd => "gather_nd" | op_std => "std"
  | op_boolean_mask => "boolean_mask" | op_isfinite => "isfinite"
  | op_scatter => "scatter" | op_any => "any" | op_all => "all"
  | op_fft => "fft" | op_ifft => "ifft" | op_imag => "imag" | op_real => "real"
  | op_cast => "cast" | op_sin => "sin" | op_cos => "cos" | op_dtype => "dtype"
  | op_tile => "tile" | op_sparse_tensor => "sparse_tensor"
  | op_coordinates => "coordinates"
  | op_conjugate_gradient => "conjugate_gradient"
  end.

(** The body of an abstract method in the base class.  The first seven raise
    [NotImplementedError()], all the others [NotImplementedError(self)]. *)
Definition abstract_body {A : Type} (self : Backend) (op : AbstractOp) : Result A :=
  match op with
  | op_is_tensor | op_as_tensor | op_is_available | op_numpy | op_copy
  | op_transpose | op_equal =>
      Raise (mkException NotImplementedError [])
  | op_random_uniform | op_random_normal | op_stack
  | op_concat | op_pad | op_reshape | op_sum | op_prod | op_divide_no_nan
  | op_where | op_nonzero | op_mean | op_py_func | op_range | op_zeros
  | op_zeros_like | op_ones | op_ones_like | op_meshgrid | op_dot | op_matmul
  | op_einsum | op_while_loop | op_abs | op_sign | op_round | op_ceil | op_floor
  | op_max | op_min | op_maximum | op_minimum | op_clip
  | op_with_custom_gradient | op_sqrt | op_exp | op_conv | op_expand_dims
  | op_shape | op_staticshape | op_to_float | op_to_int | op_to_complex
  | op_gather | op_gather_nd | op_std | op_boolean_mask | op_isfinite
  | op_scatter | op_any | op_all | op_fft | op_ifft | op_imag | op_real
  | op_cast | op_sin | op_cos | op_dtype | op_tile | op_sparse_tensor
  | op_coordinates | op_conjugate_gradient =>
      Raise (mkException NotImplementedError [ArgBackend self])
  end.

(** The abstract methods that raise without passing [self]. *)
Definition raised_without_self : list AbstractOp :=
  [op_is_tensor; op_as_tensor; op_is_available; op_numpy; op_copy;
   op_transpose; op_equal].

(** Whether [s] occurs in [t] as a substring. *)
Fixpoint occurs_in (s t : string) : bool :=
  String.prefix s t ||
  match t with
  | EmptyString => false
  | String _ t' => occurs_in s t'
  end.

(** Whether the text [s] can be read off the arguments of an exception: a
    backend argument shows as its name ([__str__]), a string as itself. *)
Definition arg_mentions (s : string) (a : ExcArg) : bool :=
  match a with
  | ArgBackend b => occurs_in s (__str__ b)
  | ArgStr t => occurs_in s t
  | ArgDTypes _ => false
  end.

Definition mentions (e : Exception) (s : string) : bool :=
  existsb (arg_mentions s) (exc_args e).

(** The Python operators used by the default binary methods. *)
Inductive BinOp : Type := Add | Sub | Mul | TrueDiv | Pow | Mod.

(** ** Concrete backends, [auto_cast] and the default binary methods *)

Section Engine.

(** Native tensors, and the arguments and results of abstract methods. *)
Variables Tensor Args Value : Type.

(** A concrete backend class: which abstract methods it overrides and with
    what bodies.  Method lookup falls back to the base class. *)
Record BackendClass : Type := mkBackendClass {
  implements : AbstractOp -> bool;
  dtype_impl : Backend -> Tensor -> Result DType;
  cast_impl : Backend -> Tensor -> DType -> Result Tensor;
  method_impl : AbstractOp -> Backend -> Args -> Result Value
}.

(** The base class itself overrides nothing. *)
Definition base_class : BackendClass :=
  mkBackendClass (fun _ => false)
    (fun self _ => abstract_body self op_dtype)
    (fun self _ _ => abstract_body self op_cast)
    (fun op self _ => abstract_body self op).

Variable cls : BackendClass.

(** The native operators [a + b], [a - b], ... of the engine's tensors. *)
Variable native : BinOp -> Tensor -> Tensor -> Result Tensor.

Definition invoke (self : Backend) (op : AbstractOp) (args : Args) : Result Value :=
  if implements cls op then method_impl cls op self args
  else abstract_body self op.

Definition dtype (self : Backend) (array : Tensor) : Result DType :=
  if implements cls op_dtype then dtype_impl cls self array
  else abstract_body self op_dtype.

Definition cast (self : Backend) (x : Tensor) (dt : DType) : Result Tensor :=
  if implements cls op_cast then cast_impl cls self x dt
  else abstract_body self op_cast.

(** [auto_cast] as the base class defines it; [dtype] and [cast] are looked
    up in the concrete class. *)
Definition auto_cast (self : Backend) (p : Process) (tensors : list Tensor)
  : Result (list Tensor) :=
  dtypes <- mapM (fun t => dtype self t) tensors ;;
  result_type <- combine_types self p dtypes ;;
  tensors' <- mapM (fun t => cast self t result_type) tensors ;;
  Return tensors'.

(** [a, b = ...]: unpacking a list into two names. *)
Definition unpack2 (l : list Tensor) : Result (Tensor * Tensor) :=
  match l with
  | [a; b] => Return (a, b)
  | _ => Raise (mkException ValueError [ArgStr "wrong number of values to unpack"])
  end.

Definition add (self : Backend) (p : Process) (a b : Tensor) : Result Tensor :=
  ab <- (l <- auto_cast self p [a; b] ;; unpack2 l) ;;
  native Add (fst ab) (snd ab).

Definition sub (self : Backend) (p : Process) (a b : Tensor) : Result Tensor :=
  ab <- (l <- auto_cast self p [a; b] ;; unpack2 l) ;;
  native Sub (fst ab) (snd ab).

Definition mul (self : Backend) (p : Process) (a b : Tensor) : Result Tensor :=
  ab <- (l <- auto_cast self p [a; b] ;; unpack2 l) ;;
  native Mul (fst ab) (snd ab).

Definition div (self : Backend) (p : Process) (numerator denominator : Tensor)
  : Result Tensor :=
  nd <- (l <- auto_cast self p [numerator; denominator] ;; unpack2 l) ;;
  native TrueDiv (fst nd) (snd nd).

Definition pow (self : Backend) (p : Process) (base exp : Tensor) : Result Tensor :=
  be <- (l <- auto_cast self p [base; exp] ;; unpack2 l) ;;
  native Pow (fst be) (snd be).

Definition mod_ (self : Backend) (p : Process) (dividend divisor : Tensor)
  : Result Tensor :=
  dd <- (l <- auto_cast self p [dividend; divisor] ;; unpack2 l) ;;
  native Mod (fst dd) (snd dd).

(** The default method that implements each operator. *)
Definition binary_method (op : BinOp)
  : Backend -> Process -> Tensor -> Tensor -> Result Tensor :=
  match op with
  | Add => add | Sub => sub | Mul => mul
  | TrueDiv => div | Pow => pow | Mod => mod_
  end.

(** The behaviour the specification asks of an elementwise binary method:
    both operands are cast to [combine_types(dtype(a), dtype(b))] and the
    native operator is applied to the cast operands. *)
Definition binary_spec (op : BinOp) (self : Backend) (p : Process) (a b : Tensor)
  : Result Tensor :=
  da <- dtype self a ;;
  db <- dtype self b ;;
  t <- combine_types self p [da; db] ;;
  a' <- cast self a t ;;
  b' <- cast self b t ;;
  native op a' b'.

End Engine.

Arguments implements {Tensor Args Value} _ _.
Arguments base_class {Tensor Args Value}.

(** A toy engine to run the default methods on: a tensor is an integer
    tagged with its dtype, [cast] replaces the tag and the native operators
    compute on the integers and keep the tag of the left operand. *)
Definition tagged_class : BackendClass (DType * Z) unit unit :=
  mkBackendClass (DType * Z) unit unit
    (fun op => match op with op_dtype | op_cast => true | _ => false end)
    (fun _ x => Return (fst x))
    (fun _ x t => Return (t, snd x))
    (fun op self _ => abstract_body self op).

Definition tagged_native (op : BinOp) (a b : DType * Z) : Result (DType * Z) :=
  Return (fst a,
          match op with
          | Add => snd a + snd b
          | Sub => snd a - snd b
          | Mul => snd a * snd b
          | TrueDiv => snd a / snd b
          | Pow => snd a ^ snd b
          | Mod => snd a mod snd b
          end).

(** ** Scoped use: the [with] statement *)

(** How the body of a [with] block ends. *)
Inductive Outcome : Type :=
| Completed
| Failed (e : Exception).

Definition exc_info (o : Outcome) : option ExcType * option Exception * option string :=
  match o with
  | Completed => (None, None, None)
  | Failed e => (Some (exc_type e), Some e, Some "traceback")
  end.

(** [with self: body].  [__exit__] returns [None], so a failure of the body
    is re-raised after the pop; a failure of [__exit__] itself replaces it. *)
Definition with_ (self : Backend) (body : Process -> Outcome * Process) (p : Process)
  : Outcome * Process :=
  let p1 := __enter__ self p in
  let (o, p2) := body p1 in
  let '(ty, val, tb) := exc_info o in
  match __exit__ self ty val tb p2 with
  | Return p3 => (o, p3)
  | Raise e => (Failed e, p2)
  end.

(** [with b1: with b2: ... body], outermost backend first. *)
Fixpoint nested (bs : list Backend) (body : Process -> Outcome * Process)
  : Process -> Outcome * Process :=
  match bs with
  | [] => body
  | b :: bs' => with_ b (nested bs' body)
  end.

(** ** Linear solve *)

Inductive GradientMode : Type := implicit | inverse | autodiff.

Section ConjugateGradient.

(** Scalars of the engine with their arithmetic, comparison and norm. *)
Variable R : Type.
Variable R0 : R.
Variables Radd Rsub Rmul Rdiv Rmax : R -> R -> R.
Variable Rleb : R -> R -> bool.
Variable norm : list R -> R.

Definition vector : Type := list R.

(** [A] is a dense matrix (list of rows) or a callable linear operator. *)
Inductive Operator : Type :=
| Matrix (rows : list vector)
| Callable (f : vector -> vector).

Fixpoint zip_with (f : R -> R -> R) (u v : vector) : vector :=
  match u, v with
  | a :: u', b :: v' => f a b :: zip_with f u' v'
  | _, _ => []
  end.

Definition dot (u v : vector) : R := fold_right Radd R0 (zip_with Rmul u v).

Definition scale (c : R) (v : vector) : vector := map (Rmul c) v.

Definition apply_operator (A : Operator) (x : vector) : vector :=
  match A with
  | Matrix rows => map (fun row => dot row x) rows
  | Callable f => f x
  end.

(** State of the iteration: iterate, residual, search direction, number of
    iterations done and the iterates handed to the callback so far. *)
Record CGState : Type := mkCGState {
  cg_x : vector; cg_residual : vector; cg_direction : vector;
  cg_iterations : nat; cg_callbacks : list vector
}.

Definition cg_step (A : Operator) (s : CGState) : CGState :=
  let Ad := apply_operator A (cg_direction s) in
  let rr := dot (cg_residual s) (cg_residual s) in
  let alpha := Rdiv rr (dot (cg_direction s) Ad) in
  let x' := zip_with Radd (cg_x s) (scale alpha (cg_direction s)) in
  let r' := zip_with Rsub (cg_residual s) (scale alpha Ad) in
  let beta := Rdiv (dot r' r') rr in
  mkCGState x' r' (zip_with Radd r' (scale beta (cg_direction s)))
            (S (cg_iterations s)) (cg_callbacks s ++ [x']).

(** At most [budget] further iterations; after each one the residual is
    tested against the tolerance. *)
Fixpoint cg_loop (A : Operator) (tolerance : R) (budget : nat) (s : CGState)
  : bool * CGState :=
  match budget with
  | O => (false, s)
  | S budget' =>
      let s' := cg_step A s in
      if Rleb (norm (cg_residual s')) tolerance then (true, s')
      else cg_loop A tolerance budget' s'
  end.

(** Modelled from the spec: the base class only declares
    [conjugate_gradient] (its body raises [NotImplementedError]); the
    implementations belong to the concrete backends, which are not part of
    the sources.  The specification asks for a triple (converged, solution,
    iterations): iterate until the residual norm is at most
    [max(relative_tolerance * norm(y), absolute_tolerance)] or until
    [max_iterations] is reached, in which case [converged] is [False]; the
    callback sees the iterate once per iteration and the gradient mode does
    not change the result.  The fourth component lists the callback's
    arguments. *)
Definition conjugate_gradient (A : Operator) (y x0 : vector)
    (relative_tolerance absolute_tolerance : R) (max_iterations : nat)
    (gradient : GradientMode) : bool * vector * nat * list vector :=
  let tolerance := Rmax (Rmul relative_tolerance (norm y)) absolute_tolerance in
  let r0 := zip_with Rsub y (apply_operator A x0) in
  let (converged, s) :=
    cg_loop A tolerance max_iterations (mkCGState x0 r0 r0 O []) in
  (converged, cg_x s, cg_iterations s, cg_callbacks s).

End ConjugateGradient.

Arguments Matrix {R} rows.
Arguments Callable {R} f.

(** The solver over the rationals, with the 1-norm. *)
Definition Qmax (a b : Q) : Q := if Qle_bool a b then b else a.
Definition Qnorm1 (v : list Q) : Q := fold_right Qplus 0%Q (map Qabs v).
Definition conjugate_gradient_Q :=
  conjugate_gradient Q 0%Q Qplus Qminus Qmult Qdiv Qmax Qle_bool Qnorm1.

(** ** Backend names *)

(** [str.lower()] on ASCII text: the letters [A]-[Z] become [a]-[z], every
    other character stays.  Names are taken to be ASCII strings. *)
Definition lower_code (n : nat) : nat :=
  if (Nat.leb 65 n && Nat.leb n 90)%bool then (n + 32)%nat else n.

Definition lower_char (c : Ascii.ascii) : Ascii.ascii :=
  Ascii.ascii_of_nat (lower_code (Ascii.nat_of_ascii c)).

Fixpoint lower (s : string) : string :=
  match s with
  | EmptyString => EmptyString
  | String c s' => String (lower_char c) (lower s')
  end.

Definition matches_name (self : Backend) (n : string) : bool :=
  String.eqb (lower (name self)) (lower n).

(** Two characters that are equal or the two cases of one ASCII letter. *)
Definition same_letter (c1 c2 : Ascii.ascii) : Prop :=
  let n1 := Ascii.nat_of_ascii c1 in
  let n2 := Ascii.nat_of_ascii c2 in
  n1 = n2 \/
  ((65 <= n1 <= 90)%nat /\ n2 = (n1 + 32)%nat) \/
  ((65 <= n2 <= 90)%nat /\ n1 = (n2 + 32)%nat).

(** Strings of the same length that agree position by position up to the
    case of letters. *)
Inductive same_ignoring_case : string -> string -> Prop :=
| sic_empty : same_ignoring_case EmptyString EmptyString
| sic_char c1 c2 s1 s2 :
    same_letter c1 c2 -> same_ignoring_case s1 s2 ->
    same_ignoring_case (String c1 s1) (String c2 s2).

(** Text made of ASCII characters only. *)
Definition ascii_text (s : string) : Prop :=
  Forall (fun c => (Ascii.nat_of_ascii c < 128)%nat) (list_ascii_of_string s).

(** ** Native indexing and the composite default methods *)

(** [range(start, stop)] *)
Definition py_range (start stop : Z) : list Z :=
  map (fun k => start + Z.of_nat k) (seq 0 (Z.to_nat (stop - start))).

(** [l[i]] on a tuple or list: negative indices count from the end. *)
Definition py_list_index {A : Type} (l : list A) (i : Z) : Result A :=
  let i' := if i <? 0 then i + Z.of_nat (List.length l) else i in
  if i' <? 0 then Raise (mkException IndexError [ArgStr "tuple index out of range"])
  else match nth_error l (Z.to_nat i') with
       | Some x => Return x
       | None => Raise (mkException IndexError [ArgStr "tuple index out of range"])
       end.

(** [slice(start, stop, step)], [None] as [None]. *)
Record Slice : Type := slice {
  slice_start : option Z; slice_stop : option Z; slice_step : option Z
}.

(** One entry of an indexing key: an integer or a slice. *)
Inductive Index : Type :=
| IdxInt (i : Z)
| IdxSlice (s : Slice).

(** The key of [tensor[key]]: a Python list or a tuple of entries. *)
Inductive Key : Type :=
| KeyList (entries : list Index)
| KeyTuple (entries : list Index).

Section Composite.

(** Native tensors. *)
Variable Tensor : Type.

(** The primitive [staticshape], as method lookup resolves it for the backend
    at hand; entries of a static shape may be [None]. *)
Variable staticshape : Backend -> Tensor -> Result (list (option Z)).

(** The attribute [tensor.shape] and the operator [tensor[key]] of the
    engine's tensors. *)
Variable native_shape : Tensor -> list Z.
Variable getitem : Tensor -> Key -> Result Tensor.

Definition ndims (self : Backend) (tensor : Tensor) : Result Z :=
  s <- staticshape self tensor ;;
  Return (Z.of_nat (List.length s)).

Definition dimrange (self : Backend) (tensor : Tensor) : list Z :=
  py_range 1 (Z.of_nat (List.length (native_shape tensor)) - 1).

(** [slice(None, None, -1 if i in axes else None)] *)
Definition flip_slice (axes : list Z) (i : Z) : Index :=
  IdxSlice (slice None None (if existsb (Z.eqb i) axes then Some (-1) else None)).

Definition flip (self : Backend) (value : Tensor) (axes : list Z) : Result Tensor :=
  n <- ndims self value ;;
  let slices := map (flip_slice axes) (py_range 0 n) in
  getitem value (KeyList slices).

(** The key that selects component [slice_idx] along [axis] of a tensor of
    the given rank. *)
Definition unstack_key (rank axis : Z) (keepdims : bool) (slice_idx : Z) : Key :=
  KeyTuple
    (map (fun d =>
            if d =? axis then
              if keepdims then IdxSlice (slice (Some slice_idx) (Some (slice_idx + 1)) None)
              else IdxInt slice_idx
            else IdxSlice (slice None None None))
         (py_range 0 rank)).

Definition unstack (self : Backend) (tensor : Tensor) (axis : Z) (keepdims : bool)
  : Result (list Tensor) :=
  let rank := Z.of_nat (List.length (native_shape tensor)) in
  let axis := if axis <? 0 then axis + rank else axis in
  if (axis >=? rank) || (axis <? 0) then
    Raise (mkException ValueError [ArgStr "Illegal axis value"])
  else
    extent <- py_list_index (native_shape tensor) axis ;;
    mapM (fun slice_idx => getitem tensor (unstack_key rank axis keepdims slice_idx))
         (py_range 0 extent).

End Composite.

(** ** Entering and leaving several scopes by hand *)

(** [b1.__enter__(); b2.__enter__(); ...] *)
Definition enter_all (bs : list Backend) (p : Process) : Process :=
  fold_left (fun q b => __enter__ b q) bs p.

(** [b1.__exit__(...); b2.__exit__(...); ...], stopping at the first error. *)
Fixpoint exit_all (bs : list Backend) (p : Process) : Result Process :=
  match bs with
  | [] => Return p
  | b :: bs' => q <- __exit__ b None None None p ;; exit_all bs' q
  end.

(** * Properties *)

(** ** Kinds and the [all(...)] tests *)

Lemma Kind_eqb_eq (a b : Kind) : Kind_eqb a b = true <-> a = b.
Proof.
  destruct a, b; simpl; split; intro H; try reflexivity; try discriminate.
  - apply String.eqb_eq in H. now subst.
  - inversion H. apply String.eqb_refl.
Qed.

Lemma kind_in_In (k : Kind) (ks : list Kind) : kind_in k ks = true <-> In k ks.
Proof.
  unfold kind_in. rewrite existsb_exists. split.
  - intros [x [Hin Heq]]. apply Kind_eqb_eq in Heq. now subst.
  - intro Hin. exists k. split; [assumption | now apply Kind_eqb_eq].
Qed.

Lemma all_kinds_true (ks : list Kind) (l : list DType) :
  Forall (fun dt => In (kind dt) ks) l ->
  forallb (fun dt => kind_in (kind dt) ks) l = true.
Proof.
  induction 1 as [|dt l Hdt _ IH]; simpl.
  - reflexivity.
  - rewrite IH, andb_true_r. now apply kind_in_In.
Qed.

Lemma all_kinds_false (ks : list Kind) (l : list DType) :
  Exists (fun dt => ~ In (kind dt) ks) l ->
  forallb (fun dt => kind_in (kind dt) ks) l = false.
Proof.
  induction 1 as [dt l Hdt | dt l _ IH]; simpl.
  - destruct (kind_in (kind dt) ks) eqn:E; [|reflexivity].
    apply kind_in_In in E. contradiction.
  - rewrite IH. apply andb_false_r.
Qed.

Lemma all_bool_test (l : list DType) :
  forallb (fun dt => Kind_eqb (kind dt) py_bool) l
  = forallb (fun dt => kind_in (kind dt) [py_bool]) l.
Proof.
  induction l as [|dt l IH]; simpl; [reflexivity|].
  now rewrite IH, orb_false_r.
Qed.

(** A list that holds a DType of kind [k] fails every test whose tuple of
    kinds leaves [k] out. *)
Lemma all_kinds_false_of (k : Kind) (ks : list Kind) (l : list DType) :
  ~ In k ks ->
  Exists (fun dt => kind dt = k) l ->
  forallb (fun dt => kind_in (kind dt) ks) l = false.
Proof.
  intros Hk Hex. apply all_kinds_false.
  eapply Exists_impl; [|exact Hex]. simpl. intros dt Heq. now rewrite Heq.
Qed.

Lemma Forall_kinds_weaken (ks ks' : list Kind) (l : list DType) :
  incl ks ks' ->
  Forall (fun dt => In (kind dt) ks) l -> Forall (fun dt => In (kind dt) ks') l.
Proof.
  intros Hincl. apply Forall_impl. intros dt Hin. now apply Hincl.
Qed.

Ltac kind_neq := simpl; intuition discriminate.
Ltac kind_incl := intros k0 Hk0; simpl in *; intuition.
Ltac kinds_ok := repeat (apply Forall_cons || apply Forall_nil); simpl; auto 10.

(** ** The branches of [combine_types] *)

Lemma combine_types_all_bool self p dtypes :
  Forall (fun dt => In (kind dt) [py_bool]) dtypes ->
  combine_types self p dtypes = index0 dtypes.
Proof.
  intro H. unfold combine_types.
  now rewrite all_bool_test, (all_kinds_true _ _ H).
Qed.

Lemma combine_types_integer self p dtypes :
  Forall (fun dt => In (kind dt) [py_bool; py_int]) dtypes ->
  Exists (fun dt => kind dt = py_int) dtypes ->
  combine_types self p dtypes = py_max bits dtypes.
Proof.
  intros Hall Hint. unfold combine_types.
  rewrite all_bool_test, (all_kinds_false_of py_int) by (assumption || kind_neq).
  rewrite (all_kinds_true _ _ Hall).
  destruct (py_max bits dtypes); reflexivity.
Qed.

Lemma combine_types_real self p dtypes :
  Forall (fun dt => In (kind dt) [py_bool; py_int; py_float]) dtypes ->
  Exists (fun dt => kind dt = py_float) dtypes ->
  combine_types self p dtypes = Return (float_type self p).
Proof.
  intros Hall Hfl. unfold combine_types.
  rewrite all_bool_test, (all_kinds_false_of py_float) by (assumption || kind_neq).
  rewrite (all_kinds_false_of py_float) by (assumption || kind_neq).
  rewrite all_kinds_true; [reflexivity|].
  eapply Forall_kinds_weaken; [|exact Hall]. kind_incl.
Qed.

Lemma combine_types_with_complex self p dtypes :
  Forall (fun dt => In (kind dt) [py_bool; py_int; py_float; py_complex]) dtypes ->
  Exists (fun dt => kind dt = py_complex) dtypes ->
  combine_types self p dtypes = Return (complex_type self p).
Proof.
  intros Hall Hc. unfold combine_types.
  rewrite all_bool_test, (all_kinds_false_of py_complex) by (assumption || kind_neq).
  rewrite (all_kinds_false_of py_complex) by (assumption || kind_neq).
  rewrite (all_kinds_false_of py_complex) by (assumption || kind_neq).
  rewrite all_kinds_true; [reflexivity|].
  eapply Forall_kinds_weaken; [|exact Hall]. kind_incl.
Qed.

Lemma combine_types_unsupported self p dtypes :
  Exists (fun dt => ~ In (kind dt) [py_bool; py_int; py_float; py_complex]) dtypes ->
  combine_types self p dtypes = Raise (mkException ValueError [ArgDTypes dtypes]).
Proof.
  intro Hex. unfold combine_types.
  assert (Hsub : forall ks, incl ks [py_bool; py_int; py_float; py_complex] ->
                 forallb (fun dt => kind_in (kind dt) ks) dtypes = false).
  { intros ks Hincl. apply all_kinds_false.
    eapply Exists_impl; [|exact Hex]. simpl. intros dt Hn Hin.
    apply Hn. now apply Hincl. }
  rewrite all_bool_test.
  rewrite !Hsub by kind_incl. reflexivity.
Qed.

(** ** Python's [max] with a key *)

Lemma py_max_from_In {A : Type} (key : A -> Z) (rest : list A) :
  forall cur, In (py_max_from key cur rest) (cur :: rest).
Proof.
  induction rest as [|x rest IH]; intro cur; simpl.
  - now left.
  - destruct (key x >? key cur).
    + right. apply IH.
    + destruct (IH cur) as [H | H]; [now left | right; now right].
Qed.

Lemma py_max_from_ge_cur {A : Type} (key : A -> Z) (rest : list A) :
  forall cur, key cur <= key (py_max_from key cur rest).
Proof.
  induction rest as [|x rest IH]; intro cur; simpl.
  - lia.
  - destruct (key x >? key cur) eqn:E.
    + specialize (IH x). lia.
    + apply IH.
Qed.

Lemma py_max_from_upper {A : Type} (key : A -> Z) (rest : list A) :
  forall cur x, In x (cur :: rest) -> key x <= key (py_max_from key cur rest).
Proof.
  induction rest as [|y rest IH]; intros cur x Hin; simpl.
  - destruct Hin as [-> | []]. lia.
  - destruct Hin as [-> | [-> | Hin]].
    + destruct (key y >? key x) eqn:E.
      * pose proof (py_max_from_ge_cur key rest y). lia.
      * apply py_max_from_ge_cur.
    + destruct (key x >? key cur) eqn:E.
      * apply py_max_from_ge_cur.
      * pose proof (py_max_from_ge_cur key rest cur). lia.
    + destruct (key y >? key cur); apply IH; now right.
Qed.

(** What the integer branch does return: an operand of the list that is at
    least as wide as every operand. *)
Lemma combine_types_integer_widest self p dtypes :
  Forall (fun dt => In (kind dt) [py_bool; py_int]) dtypes ->
  Exists (fun dt => kind dt = py_int) dtypes ->
  exists d, combine_types self p dtypes = Return d /\ In d dtypes /\
            Forall (fun dt => bits dt <= bits d) dtypes.
Proof.
  intros Hall Hint. rewrite combine_types_integer by assumption.
  destruct dtypes as [|d0 rest]; [inversion Hint|]. simpl.
  eexists. split; [reflexivity|]. split.
  - apply py_max_from_In.
  - apply Forall_forall. intros x Hx. now apply py_max_from_upper.
Qed.

(** X4. The result is an integer type as soon as every boolean operand is
    strictly narrower than some integer operand. *)
Lemma combine_types_integer_kind self p dtypes d :
  Forall (fun dt => In (kind dt) [py_bool; py_int]) dtypes ->
  Exists (fun dt => kind dt = py_int) dtypes ->
  (forall b, In b dtypes -> kind b = py_bool ->
             exists i, In i dtypes /\ kind i = py_int /\ bits b < bits i) ->
  combine_types self p dtypes = Return d ->
  kind d = py_int.
Proof.
  intros Hall Hint Hnarrow Hd.
  destruct (combine_types_integer_widest self p dtypes Hall Hint)
    as [d' [Hd' [Hin Hmax]]].
  rewrite Hd in Hd'. inversion Hd'; subst d'.
  rewrite Forall_forall in Hall, Hmax.
  destruct (Hall d Hin) as [Hb | [Hi | []]]; [|now symmetry].
  destruct (Hnarrow d Hin (eq_sym Hb)) as [i [Hi [_ Hlt]]].
  specialize (Hmax i Hi). lia.
Qed.

(** ** Reordering the operands *)

Lemma forallb_Permutation {A : Type} (f : A -> bool) (l l' : list A) :
  Permutation l l' -> forallb f l = forallb f l'.
Proof.
  induction 1 as [| x l l' _ IH | x y l | l l' l'' _ IH1 _ IH2]; simpl.
  - reflexivity.
  - now rewrite IH.
  - destruct (f x), (f y); reflexivity.
  - now rewrite IH1.
Qed.

(** X5. With a float or complex operand among the four numeric kinds the result
    does not depend on the order of the operands. *)
Lemma combine_types_Permutation_inexact self p l l' :
  Permutation l l' ->
  Forall (fun dt => In (kind dt) [py_bool; py_int; py_float; py_complex]) l ->
  Exists (fun dt => kind dt = py_float \/ kind dt = py_complex) l ->
  combine_types self p l = combine_types self p l'.
Proof.
  intros Hperm Hall Hex. unfold combine_types.
  rewrite <- !(forallb_Permutation _ l l' Hperm).
  assert (H2 : forallb (fun dt => kind_in (kind dt) [py_bool; py_int]) l = false).
  { apply all_kinds_false. eapply Exists_impl; [|exact Hex].
    simpl. intros dt [H | H]; rewrite H; intuition discriminate. }
  assert (H1 : forallb (fun dt => Kind_eqb (kind dt) py_bool) l = false).
  { rewrite all_bool_test. apply all_kinds_false. eapply Exists_impl; [|exact Hex].
    simpl. intros dt [H | H]; rewrite H; intuition discriminate. }
  rewrite H1, H2.
  rewrite (all_kinds_true [py_complex; py_float; py_int; py_bool]).
  - reflexivity.
  - eapply Forall_kinds_weaken; [|exact Hall]. kind_incl.
Qed.

(** X6. For integer and boolean operands the bit width of the result does not
    depend on the order. *)
Lemma combine_types_Permutation_bits self p l l' :
  Permutation l l' ->
  Forall (fun dt => In (kind dt) [py_bool; py_int]) l ->
  Exists (fun dt => kind dt = py_int) l ->
  exists d d', combine_types self p l = Return d /\
               combine_types self p l' = Return d' /\ bits d = bits d'.
Proof.
  intros Hperm Hall Hint.
  assert (Hall' : Forall (fun dt => In (kind dt) [py_bool; py_int]) l').
  { rewrite Forall_forall in *. intros x Hx. apply Hall.
    eapply Permutation_in; [apply Permutation_sym; exact Hperm | exact Hx]. }
  assert (Hint' : Exists (fun dt => kind dt = py_int) l').
  { rewrite Exists_exists in *. destruct Hint as [x [Hx Hk]]. exists x.
    split; [eapply Permutation_in; eassumption | assumption]. }
  destruct (combine_types_integer_widest self p l Hall Hint) as [d [Hd [Hin Hmax]]].
  destruct (combine_types_integer_widest self p l' Hall' Hint') as [d' [Hd' [Hin' Hmax']]].
  exists d, d'. repeat split; try assumption.
  rewrite Forall_forall in Hmax, Hmax'.
  assert (bits d' <= bits d).
  { apply Hmax. eapply Permutation_in; [apply Permutation_sym; exact Hperm | exact Hin']. }
  assert (bits d <= bits d').
  { apply Hmax'. eapply Permutation_in; eassumption. }
  lia.
Qed.

(** ** Levels of inexactness and regrouping *)

Lemma level_app (l1 l2 : list DType) :
  level (l1 ++ l2) = Nat.max (level l1) (level l2).
Proof.
  induction l1 as [|dt l1 IH]; simpl; [reflexivity|].
  fold (level (l1 ++ l2)) (level l1). rewrite IH. lia.
Qed.

Lemma level_upper (l : list DType) :
  Forall (fun dt => (inexactness (kind dt) <= level l)%nat) l.
Proof.
  induction l as [|dt l IH]; [constructor|].
  constructor; simpl; fold (level l).
  - lia.
  - eapply Forall_impl; [|exact IH]. simpl. intros x Hx. lia.
Qed.

Lemma level_reached (l : list DType) (n : nat) :
  (1 <= n)%nat -> (n <= level l)%nat ->
  Exists (fun dt => (n <= inexactness (kind dt))%nat) l.
Proof.
  intros Hn. induction l as [|dt l IH]; simpl; intro H.
  - lia.
  - fold (level l) in H.
    destruct (Nat.le_gt_cases n (inexactness (kind dt))) as [Hle | Hgt].
    + now left.
    + right. apply IH. lia.
Qed.

(** The result of [combine_types] on numeric operands has the level of the
    list, and is the canonical float or complex type from level 1 on. *)
Lemma combine_types_level self p (l : list DType) :
  l <> [] -> Forall numeric l ->
  exists d, combine_types self p l = Return d /\ numeric d /\
            inexactness (kind d) = level l /\
            ((1 <= level l)%nat ->
             d = if Nat.eqb (level l) 1 then float_type self p else complex_type self p).
Proof.
  intros Hne Hnum.
  pose proof (level_upper l) as Hup.
  destruct (level l) as [|[|n]] eqn:Hlev.
  - (* exact operands only *)
    assert (Hexact : Forall (fun dt => In (kind dt) [py_bool; py_int]) l).
    { rewrite Forall_forall in *. intros dt Hin.
      specialize (Hnum dt Hin). specialize (Hup dt Hin). unfold numeric in Hnum.
      simpl in *. destruct (kind dt); simpl in Hup; try lia; intuition discriminate. }
    assert (Hin : exists d, combine_types self p l = Return d /\ In d l).
    { unfold combine_types. rewrite (all_kinds_true _ _ Hexact).
      destruct l as [|d0 rest]; [contradiction|].
      destruct (forallb _ (d0 :: rest)).
      - exists d0. split; [reflexivity | now left].
      - simpl. eexists. split; [reflexivity | apply py_max_from_In]. }
    destruct Hin as [d [Hd Hin]]. exists d. split; [exact Hd|].
    rewrite Forall_forall in Hnum, Hup.
    split; [now apply Hnum|]. split; [|lia].
    specialize (Hup d Hin). lia.
  - (* some float, no complex *)
    exists (float_type self p). split.
    + apply combine_types_real.
      * rewrite Forall_forall in *. intros dt Hin.
        specialize (Hnum dt Hin). specialize (Hup dt Hin). unfold numeric in Hnum.
        simpl in *. destruct (kind dt); simpl in Hup; try lia; intuition discriminate.
      * assert (Hr : Exists (fun dt => (1 <= inexactness (kind dt))%nat) l)
          by (apply level_reached; lia).
        rewrite Exists_exists in *. destruct Hr as [dt [Hin Hdt]]. exists dt.
        split; [exact Hin|]. rewrite Forall_forall in Hup. specialize (Hup dt Hin).
        destruct (kind dt); simpl in *; try lia; reflexivity.
    + split; [unfold numeric; simpl; auto|]. split; reflexivity.
  - (* some complex *)
    assert (Hr : Exists (fun dt => (2 <= inexactness (kind dt))%nat) l)
      by (apply level_reached; lia).
    assert (n = 0%nat).
    { assert (Hr' : Exists (fun dt => (S (S n) <= inexactness (kind dt))%nat) l)
        by (apply level_reached; lia).
      rewrite Exists_exists in Hr'. destruct Hr' as [dt [_ Hdt]].
      destruct (kind dt); simpl in Hdt; lia. }
    subst n. exists (complex_type self p). split.
    + apply combine_types_with_complex; [exact Hnum|].
      eapply Exists_impl; [|exact Hr]. simpl. intros dt Hdt.
      destruct (kind dt); simpl in *; try lia; reflexivity.
    + split; [unfold numeric; simpl; auto 10|]. split; reflexivity.
Qed.

Lemma mapM_combine_types_level self p (groups : list (list DType)) :
  Forall (fun g => g <> [] /\ Forall numeric g) groups ->
  exists parts, mapM (combine_types self p) groups = Return parts /\
                Forall numeric parts /\ level parts = level (List.concat groups) /\
                List.length parts = List.length groups.
Proof.
  induction 1 as [|g groups [Hne Hnum] _ IH]; simpl.
  - exists []. repeat split. constructor.
  - destruct IH as [parts [Hparts [Hnp [Hlev Hlen]]]].
    destruct (combine_types_level self p g Hne Hnum) as [d [Hd [Hdn [Hdl _]]]].
    exists (d :: parts). rewrite Hd. simpl. rewrite Hparts. simpl.
    split; [reflexivity|]. split; [now constructor|]. split.
    + fold (level parts). rewrite level_app, Hdl, Hlev. reflexivity.
    + now rewrite Hlen.
Qed.

(** X7. With a float or complex operand among numeric operands, combining group
    by group gives the result of combining all operands at once. *)
Lemma combine_grouped_inexact self p (groups : list (list DType)) :
  Forall (fun g => g <> [] /\ Forall numeric g) groups ->
  Exists (fun dt => kind dt = py_float \/ kind dt = py_complex) (List.concat groups) ->
  combine_grouped self p groups = combine_types self p (List.concat groups).
Proof.
  intros Hgroups Hex.
  assert (Hlev : (1 <= level (List.concat groups))%nat).
  { pose proof (level_upper (List.concat groups)) as Hup.
    rewrite Exists_exists in Hex. destruct Hex as [dt [Hin Hk]].
    rewrite Forall_forall in Hup. specialize (Hup dt Hin).
    destruct Hk as [Hk | Hk]; rewrite Hk in Hup; simpl in Hup; lia. }
  destruct (mapM_combine_types_level self p groups Hgroups)
    as [parts [Hparts [Hnp [Hpl Hlen]]]].
  unfold combine_grouped. rewrite Hparts. simpl.
  assert (Hall : Forall numeric (List.concat groups)).
  { clear - Hgroups. induction Hgroups as [|g groups [_ Hg] _ IH]; simpl.
    - constructor.
    - apply Forall_app. now split. }
  assert (Hne : List.concat groups <> []).
  { intro E. rewrite E in Hlev. simpl in Hlev. lia. }
  assert (Hpne : parts <> []).
  { intro E. rewrite E in Hpl. simpl in Hpl. lia. }
  destruct (combine_types_level self p parts Hpne Hnp) as [d [Hd [_ [_ Hcan]]]].
  destruct (combine_types_level self p (List.concat groups) Hne Hall) as [d' [Hd' [_ [_ Hcan']]]].
  rewrite Hd, Hd'. f_equal.
  rewrite Hcan, Hcan' by lia. now rewrite Hpl.
Qed.

Lemma combine_grouped_inexact_witness :
  combine_grouped (mkBackend "NumPy") (mkProcess [] 32)
    [[mkDType py_bool 8; mkDType py_int 8]; [mkDType py_float 64]]
  = combine_types (mkBackend "NumPy") (mkProcess [] 32)
      (List.concat [[mkDType py_bool 8; mkDType py_int 8]; [mkDType py_float 64]]).
Proof.
  apply (combine_grouped_inexact (mkBackend "NumPy") (mkProcess [] 32)
           [[mkDType py_bool 8; mkDType py_int 8]; [mkDType py_float 64]]).
  - repeat (apply Forall_cons || apply Forall_nil || split);
      (discriminate || (unfold numeric; simpl; auto 10)).
  - simpl. right. right. left. left. reflexivity.
Defined.

(** ** Claims about [combine_types] *)

(** C1. [combine_types] is meant to be independent of the order of its
    operands.  The code is not: an 8-bit boolean and an 8-bit integer are a
    permutation of each other in either order, yet they combine to the boolean
    type when the boolean comes first and to the integer type when the integer
    comes first (Python's [max] keeps the first of two equally wide operands). *)
Theorem combine_types_order_dependent :
  forall self p,
    Permutation [mkDType py_bool 8; mkDType py_int 8]
                [mkDType py_int 8; mkDType py_bool 8] /\
    combine_types self p [mkDType py_bool 8; mkDType py_int 8]
      = Return (mkDType py_bool 8) /\
    combine_types self p [mkDType py_int 8; mkDType py_bool 8]
      = Return (mkDType py_int 8) /\
    combine_types self p [mkDType py_bool 8; mkDType py_int 8]
      <> combine_types self p [mkDType py_int 8; mkDType py_bool 8].
Proof.
  intros self p. split; [apply perm_swap|].
  split; [reflexivity|]. split; [reflexivity|].
  cbv. discriminate.
Qed.

(** C3. With only boolean and integer operands and at least one integer, the
    result should be the widest integer type.  The code returns the first
    operand of maximal bit width whatever its kind: an 8-bit boolean followed
    by an 8-bit integer yields the boolean type, not an integer type. *)
Theorem combine_types_bool_int_tie :
  forall self p,
    Forall (fun dt => In (kind dt) [py_bool; py_int])
           [mkDType py_bool 8; mkDType py_int 8] /\
    Exists (fun dt => kind dt = py_int) [mkDType py_bool 8; mkDType py_int 8] /\
    exists d, combine_types self p [mkDType py_bool 8; mkDType py_int 8] = Return d /\
              kind d = py_bool /\ kind d <> py_int /\ bits d = 8.
Proof.
  intros self p. split; [|split].
  - kinds_ok.
  - right. left. reflexivity.
  - exists (mkDType py_bool 8). repeat split. discriminate.
Qed.

(** C4. For every non-empty list of DTypes whose kinds are all among bool,
    int and float and that holds at least one float, [combine_types] returns
    the canonical float type [DType(float, precision)], where [precision] is
    the process-wide precision setting, whatever the bit widths of the
    operands. *)
Theorem combine_types_float :
  forall self p dtypes,
    dtypes <> [] ->
    Forall (fun dt => In (kind dt) [py_bool; py_int; py_float]) dtypes ->
    Exists (fun dt => kind dt = py_float) dtypes ->
    combine_types self p dtypes = Return (mkDType py_float (get_precision p)).
Proof.
  intros self p dtypes _ Hall Hfl.
  now rewrite combine_types_real.
Qed.

(** Two 64-bit floats combine to a 32-bit float under the default precision. *)
Lemma combine_types_float_witness :
  combine_types (mkBackend "NumPy") (mkProcess [] 32)
                [mkDType py_float 64; mkDType py_float 64]
  = Return (mkDType py_float 32).
Proof.
  apply (combine_types_float (mkBackend "NumPy") (mkProcess [] 32)
                             [mkDType py_float 64; mkDType py_float 64]).
  - discriminate.
  - kinds_ok.
  - left. reflexivity.
Defined.

(** C5. For every non-empty list of DTypes whose kinds are all among bool,
    int, float and complex and that holds at least one complex, [combine_types]
    returns a DType of kind complex whose bit width is [max(64, precision)]. *)
Theorem combine_types_complex :
  forall self p dtypes,
    dtypes <> [] ->
    Forall (fun dt => In (kind dt) [py_bool; py_int; py_float; py_complex]) dtypes ->
    Exists (fun dt => kind dt = py_complex) dtypes ->
    combine_types self p dtypes
      = Return (mkDType py_complex (Z.max 64 (get_precision p))).
Proof.
  intros self p dtypes _ Hall Hc.
  now rewrite combine_types_with_complex.
Qed.

Lemma combine_types_complex_witness :
  combine_types (mkBackend "NumPy") (mkProcess [] 32)
                [mkDType py_int 32; mkDType py_complex 128; mkDType py_float 64]
  = Return (mkDType py_complex 64).
Proof.
  apply (combine_types_complex (mkBackend "NumPy") (mkProcess [] 32)
           [mkDType py_int 32; mkDType py_complex 128; mkDType py_float 64]).
  - discriminate.
  - kinds_ok.
  - right. left. reflexivity.
Defined.

(** C6. For every non-empty list of DTypes that holds at least one DType
    whose kind is none of bool, int, float, complex, [combine_types] raises
    the type-mismatch error ([ValueError] carrying the operands) and returns
    no DType. *)
Theorem combine_types_type_mismatch :
  forall self p dtypes,
    dtypes <> [] ->
    Exists (fun dt => ~ In (kind dt) [py_bool; py_int; py_float; py_complex]) dtypes ->
    combine_types self p dtypes = Raise (mkException ValueError [ArgDTypes dtypes]) /\
    forall d, combine_types self p dtypes <> Return d.
Proof.
  intros self p dtypes _ Hex.
  rewrite combine_types_unsupported by assumption.
  split; [reflexivity | discriminate].
Qed.

Lemma combine_types_type_mismatch_witness :
  combine_types (mkBackend "NumPy") (mkProcess [] 32)
                [mkDType py_float 32; mkDType (py_other "str") 8]
  = Raise (mkException ValueError
             [ArgDTypes [mkDType py_float 32; mkDType (py_other "str") 8]]).
Proof.
  apply (combine_types_type_mismatch (mkBackend "NumPy") (mkProcess [] 32)
           [mkDType py_float 32; mkDType (py_other "str") 8]).
  - discriminate.
  - right. left. simpl. intuition discriminate.
Defined.

(** C10. [combine_types] needs at least one operand: without any, the
    all-boolean test holds vacuously and [dtypes[0]] raises [IndexError], so no
    DType is returned; [auto_cast] without tensors therefore fails in the
    same way instead of returning an empty list, for every backend class. *)
Theorem combine_types_no_operands :
  forall self p,
    forallb (fun dt => Kind_eqb (kind dt) py_bool) [] = true /\
    combine_types self p []
      = Raise (mkException IndexError [ArgStr "tuple index out of range"]) /\
    (forall d, combine_types self p [] <> Return d) /\
    forall (Tensor Args Value : Type) (cls : BackendClass Tensor Args Value),
      auto_cast Tensor Args Value cls self p []
        = Raise (mkException IndexError [ArgStr "tuple index out of range"]) /\
      auto_cast Tensor Args Value cls self p [] <> Return [].
Proof.
  intros self p. split; [reflexivity|]. split; [reflexivity|].
  split; [discriminate|].
  intros Tensor Args Value cls. split; [reflexivity | discriminate].
Qed.

(** ** The scoped backend stack *)

Lemma pop_last_app {A : Type} (l : list A) (x : A) :
  pop_last (l ++ [x]) = Return (x, l).
Proof.
  unfold pop_last. rewrite rev_app_distr. simpl. now rewrite rev_involutive.
Qed.

Lemma pop_last_length {A : Type} (l l' : list A) (x : A) :
  pop_last l = Return (x, l') -> l = (l' ++ [x])%list /\ List.length l = S (List.length l').
Proof.
  unfold pop_last. intro H.
  destruct (rev l) as [|y r] eqn:E; [discriminate|].
  inversion H; subst y l'.
  assert (Hl : l = (rev r ++ [x])%list).
  { rewrite <- (rev_involutive l), E. reflexivity. }
  split; [exact Hl|].
  rewrite Hl at 1. rewrite length_app. simpl. lia.
Qed.

Lemma exit_after_enter self p ty val tb :
  __exit__ self ty val tb (__enter__ self p) = Return p.
Proof.
  destruct p as [stack prec]. unfold __exit__, __enter__. simpl.
  now rewrite pop_last_app.
Qed.

(** C2. For every backend and every state of the process-wide stack,
    [__enter__] pushes exactly that backend on top, [__exit__] removes exactly
    the top entry whatever exception arguments it is given, and [__enter__]
    followed by [__exit__] gives back the stack (and the whole process state)
    as it was before the entry. *)
Theorem enter_exit_restores_stack :
  forall self p exc_type exc_val exc_tb,
    _DEFAULT (__enter__ self p) = (_DEFAULT p ++ [self])%list /\
    List.length (_DEFAULT (__enter__ self p)) = S (List.length (_DEFAULT p)) /\
    __exit__ self exc_type exc_val exc_tb (__enter__ self p) = Return p /\
    (forall stack top prec,
        __exit__ self exc_type exc_val exc_tb (mkProcess (stack ++ [top]) prec)
        = Return (mkProcess stack prec)) /\
    (forall q q',
        __exit__ self exc_type exc_val exc_tb q = Return q' ->
        List.length (_DEFAULT q) = S (List.length (_DEFAULT q')) /\
        exists top, _DEFAULT q = (_DEFAULT q' ++ [top])%list).
Proof.
  intros self p ty val tb. split; [reflexivity|]. split.
  { simpl. rewrite length_app. simpl. lia. }
  split; [apply exit_after_enter|].
  split.
  { intros stack top prec. unfold __exit__. simpl. now rewrite pop_last_app. }
  intros q q' H. unfold __exit__ in H.
  destruct (pop_last (_DEFAULT q)) as [[x l']|e] eqn:E; simpl in H; [|discriminate].
  inversion H; subst q'. simpl.
  apply pop_last_length in E. destruct E as [E1 E2].
  split; [exact E2 | now exists x].
Qed.

(** A [with] block whose body leaves the process state as it found it does
    so itself, and hands on the outcome of the body, failed or not. *)
Lemma with_restores self body p :
  (forall q, snd (body q) = q) ->
  with_ self body p = (fst (body (__enter__ self p)), p).
Proof.
  intro Hbal. unfold with_.
  specialize (Hbal (__enter__ self p)).
  destruct (body (__enter__ self p)) as [o p2]. simpl in *. subst p2.
  destruct (exc_info o) as [[ty val] tb].
  now rewrite exit_after_enter.
Qed.

(** Nested scopes: any number of nested [with] blocks restores the state the
    outermost block was entered with, also when the innermost body fails. *)
Lemma nested_restores bs body :
  (forall q, snd (body q) = q) ->
  forall p, snd (nested bs body p) = p.
Proof.
  intro Hbal. induction bs as [|b bs IH]; intro p; simpl.
  - apply Hbal.
  - now rewrite with_restores.
Qed.

Lemma nested_restores_witness :
  snd (nested [mkBackend "NumPy"; mkBackend "TensorFlow"]
         (fun q => (Failed (mkException ValueError []), q))
         (mkProcess [mkBackend "NumPy"] 32))
  = mkProcess [mkBackend "NumPy"] 32.
Proof.
  apply (nested_restores [mkBackend "NumPy"; mkBackend "TensorFlow"]
           (fun q => (Failed (mkException ValueError []), q))).
  intro q. reflexivity.
Defined.

(** ** Default binary methods *)

Lemma bind_assoc {A B C : Type} (c : Result A) (f : A -> Result B) (g : B -> Result C) :
  bind (bind c f) g = bind c (fun a => bind (f a) g).
Proof. destruct c; reflexivity. Qed.

Section BinaryMethods.

Variables Tensor Args Value : Type.
Variable cls : BackendClass Tensor Args Value.
Variable native : BinOp -> Tensor -> Tensor -> Result Tensor.

Lemma auto_cast_pair self p a b :
  auto_cast Tensor Args Value cls self p [a; b]
  = (da <- dtype Tensor Args Value cls self a ;;
     db <- dtype Tensor Args Value cls self b ;;
     t <- combine_types self p [da; db] ;;
     a' <- cast Tensor Args Value cls self a t ;;
     b' <- cast Tensor Args Value cls self b t ;;
     Return [a'; b']).
Proof.
  unfold auto_cast. simpl.
  destruct (dtype Tensor Args Value cls self a) as [da|e]; [simpl|reflexivity].
  destruct (dtype Tensor Args Value cls self b) as [db|e]; [simpl|reflexivity].
  destruct (combine_types self p [da; db]) as [t|e]; [simpl|reflexivity].
  destruct (cast Tensor Args Value cls self a t) as [a'|e]; [simpl|reflexivity].
  destruct (cast Tensor Args Value cls self b t) as [b'|e]; reflexivity.
Qed.

Lemma binary_method_unfold op self p a b :
  binary_method Tensor Args Value cls native op self p a b
  = (ab <- (l <- auto_cast Tensor Args Value cls self p [a; b] ;; unpack2 Tensor l) ;;
     native op (fst ab) (snd ab)).
Proof. destruct op; reflexivity. Qed.

Lemma binary_method_spec op self p a b :
  binary_method Tensor Args Value cls native op self p a b
  = binary_spec Tensor Args Value cls native op self p a b.
Proof.
  rewrite binary_method_unfold, auto_cast_pair. unfold binary_spec.
  destruct (dtype Tensor Args Value cls self a) as [da|e]; [simpl|reflexivity].
  destruct (dtype Tensor Args Value cls self b) as [db|e]; [simpl|reflexivity].
  destruct (combine_types self p [da; db]) as [t|e]; [simpl|reflexivity].
  destruct (cast Tensor Args Value cls self a t) as [a'|e]; [simpl|reflexivity].
  destruct (cast Tensor Args Value cls self b t) as [b'|e]; reflexivity.
Qed.

Lemma binary_spec_inversion op self p a b r :
  binary_spec Tensor Args Value cls native op self p a b = Return r ->
  exists da db t a' b',
    dtype Tensor Args Value cls self a = Return da /\
    dtype Tensor Args Value cls self b = Return db /\
    combine_types self p [da; db] = Return t /\
    cast Tensor Args Value cls self a t = Return a' /\
    cast Tensor Args Value cls self b t = Return b' /\
    native op a' b' = Return r.
Proof.
  unfold binary_spec. intro H.
  destruct (dtype Tensor Args Value cls self a) as [da|e]; [simpl in H|discriminate].
  destruct (dtype Tensor Args Value cls self b) as [db|e]; [simpl in H|discriminate].
  destruct (combine_types self p [da; db]) as [t|e] eqn:Et; [simpl in H|discriminate].
  destruct (cast Tensor Args Value cls self a t) as [a'|e] eqn:Ea; [simpl in H|discriminate].
  destruct (cast Tensor Args Value cls self b t) as [b'|e] eqn:Eb; [simpl in H|discriminate].
  exists da, db, t, a', b'. repeat split; assumption.
Qed.

(** X11. When the class's [cast] delivers the dtype it is asked for, the native
    operator only ever sees two operands of one and the same dtype. *)
Lemma binary_method_operands_agree op self p a b r :
  (forall x t x', cast Tensor Args Value cls self x t = Return x' ->
                  dtype Tensor Args Value cls self x' = Return t) ->
  binary_method Tensor Args Value cls native op self p a b = Return r ->
  exists t a' b',
    native op a' b' = Return r /\
    dtype Tensor Args Value cls self a' = Return t /\
    dtype Tensor Args Value cls self b' = Return t.
Proof.
  intros Hcast Hr. rewrite binary_method_spec in Hr.
  apply binary_spec_inversion in Hr.
  destruct Hr as [da [db [t [a' [b' [_ [_ [_ [Ha [Hb Hn]]]]]]]]]].
  exists t, a', b'. split; [exact Hn|]. split; eapply Hcast; eassumption.
Qed.

End BinaryMethods.

(** C7. Each default elementwise binary method ([add], [sub], [mul], [div],
    [pow], [mod]) calls [auto_cast] on its two operands before it applies the
    native operator: for all operands [a] and [b], both are cast to the single
    DType [combine_types(dtype(a), dtype(b))] and the native operator is
    applied to the cast operands; an error of [dtype], [combine_types] or
    [cast] stops the method before the native operator. *)
Theorem binary_methods_auto_cast :
  forall (Tensor Args Value : Type) (cls : BackendClass Tensor Args Value)
         (native : BinOp -> Tensor -> Tensor -> Result Tensor)
         (op : BinOp) (self : Backend) (p : Process) (a b : Tensor),
    binary_method Tensor Args Value cls native op self p a b
    = (ab <- (l <- auto_cast Tensor Args Value cls self p [a; b] ;; unpack2 Tensor l) ;;
       native op (fst ab) (snd ab)) /\
    binary_method Tensor Args Value cls native op self p a b
    = binary_spec Tensor Args Value cls native op self p a b /\
    (forall r,
        binary_method Tensor Args Value cls native op self p a b = Return r ->
        exists da db t a' b',
          dtype Tensor Args Value cls self a = Return da /\
          dtype Tensor Args Value cls self b = Return db /\
          combine_types self p [da; db] = Return t /\
          cast Tensor Args Value cls self a t = Return a' /\
          cast Tensor Args Value cls self b t = Return b' /\
          auto_cast Tensor Args Value cls self p [a; b] = Return [a'; b'] /\
          native op a' b' = Return r).
Proof.
  intros Tensor Args Value cls native op self p a b.
  split; [apply binary_method_unfold|].
  split; [apply binary_method_spec|].
  intros r Hr. rewrite binary_method_spec in Hr.
  apply binary_spec_inversion in Hr.
  destruct Hr as [da [db [t [a' [b' [Hda [Hdb [Ht [Ha [Hb Hn]]]]]]]]]].
  exists da, db, t, a', b'. repeat split; try assumption.
  rewrite auto_cast_pair, Hda. simpl. rewrite Hdb. simpl. rewrite Ht. simpl.
  rewrite Ha. simpl. rewrite Hb. reflexivity.
Qed.

Lemma binary_method_operands_agree_witness :
  exists t a' b',
    tagged_native Add a' b' = Return (mkDType py_float 32, 3) /\
    dtype (DType * Z) unit unit tagged_class (mkBackend "NumPy") a' = Return t /\
    dtype (DType * Z) unit unit tagged_class (mkBackend "NumPy") b' = Return t.
Proof.
  apply (binary_method_operands_agree (DType * Z) unit unit tagged_class
           tagged_native Add (mkBackend "NumPy") (mkProcess [] 32)
           (mkDType py_int 64, 1) (mkDType py_float 64, 2)).
  - intros x t x' H. cbv in H. inversion H. reflexivity.
  - reflexivity.
Defined.

(** ** Abstract operations *)

Lemma prefix_refl (s : string) : String.prefix s s = true.
Proof.
  induction s as [|c s IH]; simpl; [reflexivity|].
  destruct (Ascii.ascii_dec c c); [exact IH | contradiction].
Qed.

Lemma occurs_in_refl (s : string) : occurs_in s s = true.
Proof.
  destruct s as [|c s]; [reflexivity|].
  change (String.prefix (String c s) (String c s) || occurs_in (String c s) s = true).
  now rewrite prefix_refl.
Qed.

Lemma abstract_body_raises {A : Type} (self : Backend) (op : AbstractOp) :
  exists args, @abstract_body A self op = Raise (mkException NotImplementedError args) /\
               (args = [] \/ args = [ArgBackend self]) /\
               (~ In op raised_without_self -> args = [ArgBackend self]).
Proof.
  destruct op; simpl;
    (eexists; split; [reflexivity|]; split; [auto|]; intro Hn; try reflexivity;
     exfalso; apply Hn; simpl; auto 10).
Qed.

(** C8, as the code has it.  Constructing a backend always succeeds, and
    invoking an abstract operation that the backend's class does not
    implement raises [NotImplementedError] at call time.  The error never
    carries a string, hence never the operation's name; for every abstract
    operation other than [is_tensor], [as_tensor], [is_available], [numpy],
    [copy], [transpose] and [equal] its only argument is the backend itself,
    whose string form is the backend's name. *)
Theorem unimplemented_operation_raises :
  forall (Tensor Args Value : Type) (cls : BackendClass Tensor Args Value)
         (n : string) (op : AbstractOp) (args : Args),
    implements cls op = false ->
    exists self e,
      Backend__init__ n = Return self /\ name self = n /\
      invoke Tensor Args Value cls self op args = Raise e /\
      exc_type e = NotImplementedError /\
      (forall s, ~ In (ArgStr s) (exc_args e)) /\
      (~ In op raised_without_self ->
       exc_args e = [ArgBackend self] /\ mentions e (name self) = true).
Proof.
  intros Tensor Args Value cls n op args Himpl.
  exists (mkBackend n).
  destruct (@abstract_body_raises Value (mkBackend n) op) as [eargs [Hbody [Hshape Hself]]].
  exists (mkException NotImplementedError eargs).
  split; [reflexivity|]. split; [reflexivity|]. split.
  { unfold invoke. now rewrite Himpl. }
  split; [reflexivity|]. split.
  - intros s Hin. simpl in Hin.
    destruct Hshape as [-> | ->]; simpl in Hin; [contradiction|].
    destruct Hin as [Hin | []]. discriminate.
  - intro Hn. specialize (Hself Hn). subst eargs. split; [reflexivity|].
    unfold mentions. simpl. unfold __str__, name. simpl.
    now rewrite occurs_in_refl.
Qed.

Lemma unimplemented_operation_raises_witness :
  exists self e,
    Backend__init__ "NumPy" = Return self /\ name self = "NumPy" /\
    invoke unit unit unit base_class self op_sum tt = Raise e /\
    exc_type e = NotImplementedError /\
    (forall s, ~ In (ArgStr s) (exc_args e)) /\
    (~ In op_sum raised_without_self ->
     exc_args e = [ArgBackend self] /\ mentions e (name self) = true).
Proof.
  apply (unimplemented_operation_raises unit unit unit base_class "NumPy" op_sum tt).
  reflexivity.
Defined.

(** C8, as the specification has it, fails: the error that [sum] raises on a
    backend named NumPy that does not implement it carries the backend but
    not the name of the operation. *)
Lemma sum_error_omits_operation_name :
  ~ (exists self e,
        Backend__init__ "NumPy" = Return self /\
        invoke unit unit unit base_class self op_sum tt = Raise e /\
        mentions e (op_name op_sum) = true /\
        mentions e (name self) = true).
Proof.
  intros [self [e [Hinit [Hcall [Hop _]]]]].
  inversion Hinit; subst self.
  cbv in Hcall. inversion Hcall; subst e.
  vm_compute in Hop. discriminate.
Qed.

(** The seven methods that raise without [self] carry nothing at all. *)
Example is_tensor_error_is_bare :
  invoke unit unit unit base_class (mkBackend "NumPy") op_is_tensor tt
  = Raise (mkException NotImplementedError []).
Proof. reflexivity. Qed.

(** ** Linear solve *)

(** C9. For every operator [A], target [y] and initial guess [x0] (and all
    tolerances and gradient modes, over any scalar type), [conjugate_gradient]
    with [max_iterations = 0] returns a result whose [converged] component is
    [False] and whose [iterations] component is 0; the solution is the initial
    guess and the callback was never called. *)
Theorem conjugate_gradient_zero_iterations :
  forall (R : Type) (R0 : R) (Radd Rsub Rmul Rdiv Rmax : R -> R -> R)
         (Rleb : R -> R -> bool) (norm : list R -> R)
         (A : Operator R) (y x0 : vector R)
         (relative_tolerance absolute_tolerance : R) (gradient : GradientMode),
    conjugate_gradient R R0 Radd Rsub Rmul Rdiv Rmax Rleb norm
      A y x0 relative_tolerance absolute_tolerance 0 gradient
    = (false, x0, 0%nat, []).
Proof. reflexivity. Qed.

(** The solver is not idle otherwise: on the 2x2 identity with [y = (3, 4)]
    and [x0 = (0, 0)] it converges after one iteration to [(3, 4)]. *)
Example conjugate_gradient_identity :
  let '(converged, solution, iterations, _) :=
    conjugate_gradient_Q (Matrix [[1; 0]; [0; 1]]%Q) [3; 4]%Q [0; 0]%Q
                         (1 # 100000000)%Q 0%Q 1000 implicit in
  converged = true /\ iterations = 1%nat /\ Forall2 Qeq solution [3; 4]%Q.
Proof.
  vm_compute. split; [reflexivity|]. split; [reflexivity|].
  repeat constructor.
Qed.

(** The number of iterations never exceeds [max_iterations]. *)
Lemma cg_loop_iterations (R : Type) (R0 : R) (Radd Rsub Rmul Rdiv : R -> R -> R)
    (Rleb : R -> R -> bool) (norm : list R -> R) (A : Operator R) (tol : R) :
  forall budget s,
    (cg_iterations R
       (snd (cg_loop R R0 Radd Rsub Rmul Rdiv Rleb norm A tol budget s))
     <= cg_iterations R s + budget)%nat.
Proof.
  induction budget as [|budget IH]; intro s; simpl.
  - lia.
  - destruct (Rleb _ tol).
    + simpl. lia.
    + specialize (IH (cg_step R R0 Radd Rsub Rmul Rdiv A s)). simpl in IH. lia.
Qed.

(** * Further properties of the backend class *)

(** ** When [combine_types] succeeds and what kind it returns *)

Lemma numeric_dec (dt : DType) : {numeric dt} + {~ numeric dt}.
Proof.
  unfold numeric.
  destruct (kind_in (kind dt) [py_bool; py_int; py_float; py_complex]) eqn:E.
  - left. now apply kind_in_In.
  - right. intro H. apply kind_in_In in H. congruence.
Qed.

Lemma kind_eq_dec (k : Kind) (dt : DType) : {kind dt = k} + {kind dt <> k}.
Proof.
  destruct (Kind_eqb (kind dt) k) eqn:E.
  - left. now apply Kind_eqb_eq.
  - right. intro H. apply Kind_eqb_eq in H. congruence.
Qed.

Lemma combine_types_returns_operand self p (l : list DType) :
  l <> [] -> Forall (fun dt => In (kind dt) [py_bool; py_int]) l ->
  exists d, combine_types self p l = Return d /\ In d l.
Proof.
  intros Hne Hexact. unfold combine_types. rewrite (all_kinds_true _ _ Hexact).
  destruct l as [|d0 rest]; [contradiction|].
  destruct (forallb _ (d0 :: rest)).
  - exists d0. split; [reflexivity | now left].
  - simpl. eexists. split; [reflexivity | apply py_max_from_In].
Qed.

Lemma combine_types_defined self p (l : list DType) (d : DType) :
  combine_types self p l = Return d -> l <> [] /\ Forall numeric l.
Proof.
  intro Hd. split.
  - intro E. subst l. discriminate.
  - destruct (Forall_Exists_dec numeric numeric_dec l) as [H | H]; [exact H|].
    rewrite combine_types_unsupported in Hd by exact H. discriminate.
Qed.

(** X1. [combine_types] returns a DType exactly for the non-empty lists of
    numeric DTypes; on every other input it raises. *)
Theorem combine_types_succeeds_iff :
  forall self p (l : list DType),
    (exists d, combine_types self p l = Return d) <-> l <> [] /\ Forall numeric l.
Proof.
  intros self p l. split.
  - intros [d Hd]. exact (combine_types_defined self p l d Hd).
  - intros [Hne Hnum].
    destruct (combine_types_level self p l Hne Hnum) as [d [Hd _]]. now exists d.
Qed.

(** X2. The kind of the result is that of the most inexact operand: complex
    exactly when some operand is complex, float exactly when some operand is
    float and none complex, integer or boolean exactly when all operands are,
    and boolean when all operands are boolean. *)
Theorem combine_types_result_kind :
  forall self p (l : list DType),
    l <> [] -> Forall numeric l ->
    exists d,
      combine_types self p l = Return d /\
      (kind d = py_complex <-> Exists (fun dt => kind dt = py_complex) l) /\
      (kind d = py_float <->
         Exists (fun dt => kind dt = py_float) l /\
         ~ Exists (fun dt => kind dt = py_complex) l) /\
      (In (kind d) [py_bool; py_int] <->
         Forall (fun dt => In (kind dt) [py_bool; py_int]) l) /\
      (Forall (fun dt => kind dt = py_bool) l -> kind d = py_bool).
Proof.
  intros self p l Hne Hnum.
  destruct (Exists_dec (fun dt => kind dt = py_complex) l (kind_eq_dec py_complex))
    as [Hc | Hnc].
  { exists (complex_type self p).
    split; [now apply combine_types_with_complex|]. simpl.
    assert (Hnf : ~ Forall (fun dt => In (kind dt) [py_bool; py_int]) l).
    { intro HF. apply Exists_exists in Hc. destruct Hc as [x [Hin Hk]].
      rewrite Forall_forall in HF. specialize (HF x Hin). rewrite Hk in HF.
      simpl in HF. intuition discriminate. }
    assert (Hnb : ~ Forall (fun dt => kind dt = py_bool) l).
    { intro HF. apply Hnf. eapply Forall_impl; [|exact HF]. simpl. auto. }
    repeat split; intros; try assumption; try reflexivity; try tauto;
      try (simpl in *; intuition discriminate). }
  assert (Hreal : Forall (fun dt => In (kind dt) [py_bool; py_int; py_float]) l).
  { rewrite Forall_forall in *. intros x Hin. specialize (Hnum x Hin).
    unfold numeric in Hnum. simpl in *.
    destruct Hnum as [H | [H | [H | [H | []]]]]; auto.
    exfalso. apply Hnc. apply Exists_exists. exists x. split; [exact Hin | now symmetry]. }
  destruct (Exists_dec (fun dt => kind dt = py_float) l (kind_eq_dec py_float))
    as [Hf | Hnf].
  { exists (float_type self p).
    split; [now apply combine_types_real|]. simpl.
    assert (Hne' : ~ Forall (fun dt => In (kind dt) [py_bool; py_int]) l).
    { intro HF. apply Exists_exists in Hf. destruct Hf as [x [Hin Hk]].
      rewrite Forall_forall in HF. specialize (HF x Hin). rewrite Hk in HF.
      simpl in HF. intuition discriminate. }
    assert (Hnb : ~ Forall (fun dt => kind dt = py_bool) l).
    { intro HF. apply Hne'. eapply Forall_impl; [|exact HF]. simpl. auto. }
    repeat split; intros; try assumption; try reflexivity; try tauto;
      try (simpl in *; intuition discriminate). }
  assert (Hexact : Forall (fun dt => In (kind dt) [py_bool; py_int]) l).
  { rewrite Forall_forall in *. intros x Hin. specialize (Hreal x Hin).
    simpl in *. destruct Hreal as [H | [H | [H | []]]]; auto.
    exfalso. apply Hnf. apply Exists_exists. exists x. split; [exact Hin | now symmetry]. }
  destruct (combine_types_returns_operand self p l Hne Hexact) as [d [Hd Hin]].
  exists d. split; [exact Hd|].
  pose proof Hexact as Hk. rewrite Forall_forall in Hk. specialize (Hk d Hin).
  split; [|split; [|split]].
  - split; intro H; [|contradiction]. rewrite H in Hk. simpl in Hk. intuition discriminate.
  - split; [intro H | intros [H _]; contradiction].
    rewrite H in Hk. simpl in Hk. intuition discriminate.
  - tauto.
  - intro Hb. rewrite Forall_forall in Hb. now apply Hb.
Qed.

Lemma combine_types_result_kind_witness :
  exists d,
    combine_types (mkBackend "NumPy") (mkProcess [] 32)
                  [mkDType py_int 16; mkDType py_float 64] = Return d /\
    (kind d = py_complex <->
       Exists (fun dt => kind dt = py_complex) [mkDType py_int 16; mkDType py_float 64]) /\
    (kind d = py_float <->
       Exists (fun dt => kind dt = py_float) [mkDType py_int 16; mkDType py_float 64] /\
       ~ Exists (fun dt => kind dt = py_complex) [mkDType py_int 16; mkDType py_float 64]) /\
    (In (kind d) [py_bool; py_int] <->
       Forall (fun dt => In (kind dt) [py_bool; py_int])
              [mkDType py_int 16; mkDType py_float 64]) /\
    (Forall (fun dt => kind dt = py_bool) [mkDType py_int 16; mkDType py_float 64] ->
     kind d = py_bool).
Proof.
  apply (combine_types_result_kind (mkBackend "NumPy") (mkProcess [] 32)
           [mkDType py_int 16; mkDType py_float 64]).
  - discriminate.
  - repeat (apply Forall_cons || apply Forall_nil); unfold numeric; simpl; auto 10.
Defined.

(** ** The integer branch: the first widest operand *)

Lemma py_max_from_first {A : Type} (key : A -> Z) (rest : list A) :
  forall cur,
    (py_max_from key cur rest = cur /\ Forall (fun x => key x <= key cur) rest) \/
    (exists pre post,
        rest = (pre ++ py_max_from key cur rest :: post)%list /\
        key cur < key (py_max_from key cur rest) /\
        Forall (fun x => key x < key (py_max_from key cur rest)) pre /\
        Forall (fun x => key x <= key (py_max_from key cur rest)) post).
Proof.
  induction rest as [|x rest IH]; intro cur; simpl.
  - left. split; [reflexivity | constructor].
  - destruct (key x >? key cur) eqn:E.
    + right. destruct (IH x) as [[Hm Hle] | [pre [post [Hr [Hlt [Hpre Hpost]]]]]].
      * exists [], rest. rewrite Hm. simpl.
        split; [reflexivity|]. split; [lia|]. split; [constructor | exact Hle].
      * exists (x :: pre), post. split; [simpl; now rewrite <- Hr|].
        split; [lia|]. split; [constructor; [lia | exact Hpre] | exact Hpost].
    + destruct (IH cur) as [[Hm Hle] | [pre [post [Hr [Hlt [Hpre Hpost]]]]]].
      * left. split; [exact Hm|]. constructor; [lia | exact Hle].
      * right. exists (x :: pre), post. split; [simpl; now rewrite <- Hr|].
        split; [exact Hlt|]. split; [constructor; [lia | exact Hpre] | exact Hpost].
Qed.

(** X3. With integer and boolean operands, at least one of them an integer, the
    result is the first operand of maximal bit width: every operand before it
    is strictly narrower and no operand after it is wider. *)
Theorem combine_types_integer_first_widest :
  forall self p (l : list DType),
    Forall (fun dt => In (kind dt) [py_bool; py_int]) l ->
    Exists (fun dt => kind dt = py_int) l ->
    exists pre d post,
      l = (pre ++ d :: post)%list /\
      combine_types self p l = Return d /\
      Forall (fun dt => bits dt < bits d) pre /\
      Forall (fun dt => bits dt <= bits d) post.
Proof.
  intros self p l Hall Hint. rewrite combine_types_integer by assumption.
  destruct l as [|d0 rest]; [inversion Hint|]. simpl.
  destruct (py_max_from_first bits rest d0)
    as [[Hm Hle] | [pre [post [Hr [Hlt [Hpre Hpost]]]]]].
  - exists [], d0, rest. rewrite Hm. simpl.
    split; [reflexivity|]. split; [reflexivity|]. split; [constructor | exact Hle].
  - exists (d0 :: pre), (py_max_from bits d0 rest), post.
    split; [simpl; now rewrite <- Hr|]. split; [reflexivity|].
    split; [constructor; [lia | exact Hpre] | exact Hpost].
Qed.

Lemma combine_types_integer_first_widest_witness :
  exists pre d post,
    [mkDType py_int 16; mkDType py_bool 8; mkDType py_int 64; mkDType py_int 64]
      = (pre ++ d :: post)%list /\
    combine_types (mkBackend "NumPy") (mkProcess [] 32)
      [mkDType py_int 16; mkDType py_bool 8; mkDType py_int 64; mkDType py_int 64]
      = Return d /\
    Forall (fun dt => bits dt < bits d) pre /\
    Forall (fun dt => bits dt <= bits d) post.
Proof.
  apply (combine_types_integer_first_widest (mkBackend "NumPy") (mkProcess [] 32)
           [mkDType py_int 16; mkDType py_bool 8; mkDType py_int 64; mkDType py_int 64]).
  - kinds_ok.
  - left. reflexivity.
Defined.

Lemma combine_types_integer_kind_witness :
  kind (mkDType py_int 32) = py_int.
Proof.
  apply (combine_types_integer_kind (mkBackend "NumPy") (mkProcess [] 32)
           [mkDType py_bool 8; mkDType py_int 32; mkDType py_int 16]
           (mkDType py_int 32)).
  - kinds_ok.
  - right. left. reflexivity.
  - intros b Hb Hk. exists (mkDType py_int 32). simpl in Hb.
    destruct Hb as [<- | [<- | [<- | []]]]; try discriminate.
    split; [simpl; auto|]. split; [reflexivity | simpl; lia].
  - reflexivity.
Defined.

Lemma combine_types_Permutation_inexact_witness :
  combine_types (mkBackend "NumPy") (mkProcess [] 32)
                [mkDType py_bool 8; mkDType py_float 64; mkDType py_int 8]
  = combine_types (mkBackend "NumPy") (mkProcess [] 32)
                  [mkDType py_float 64; mkDType py_bool 8; mkDType py_int 8].
Proof.
  apply (combine_types_Permutation_inexact (mkBackend "NumPy") (mkProcess [] 32)
           [mkDType py_bool 8; mkDType py_float 64; mkDType py_int 8]
           [mkDType py_float 64; mkDType py_bool 8; mkDType py_int 8]).
  - apply perm_swap.
  - kinds_ok.
  - right. left. left. reflexivity.
Defined.

Lemma combine_types_Permutation_bits_witness :
  exists d d',
    combine_types (mkBackend "NumPy") (mkProcess [] 32)
                  [mkDType py_bool 8; mkDType py_int 8] = Return d /\
    combine_types (mkBackend "NumPy") (mkProcess [] 32)
                  [mkDType py_int 8; mkDType py_bool 8] = Return d' /\
    bits d = bits d'.
Proof.
  apply (combine_types_Permutation_bits (mkBackend "NumPy") (mkProcess [] 32)
           [mkDType py_bool 8; mkDType py_int 8]
           [mkDType py_int 8; mkDType py_bool 8]).
  - apply perm_swap.
  - kinds_ok.
  - right. left. reflexivity.
Defined.

(** ** The result is a fixed point *)

Lemma py_max_from_repeat {A : Type} (key : A -> Z) (d : A) (n : nat) :
  py_max_from key d (repeat d n) = d.
Proof.
  induction n as [|n IH]; simpl; [reflexivity|].
  now rewrite Z.gtb_ltb, Z.ltb_irrefl.
Qed.

Lemma Forall_repeat {A : Type} (P : A -> Prop) (d : A) (n : nat) :
  P d -> Forall P (repeat d n).
Proof. intro H. induction n; simpl; constructor; assumption. Qed.

Lemma combine_types_repeat_result self p (l : list DType) (d : DType) (n : nat) :
  combine_types self p l = Return d ->
  combine_types self p (repeat d (S n)) = Return d.
Proof.
  intros Hd.
  destruct (combine_types_defined self p l d Hd) as [Hne Hnum].
  destruct (combine_types_level self p l Hne Hnum) as [d' [Hd' [Hnd [Hlev Hcan]]]].
  rewrite Hd in Hd'. inversion Hd'; subst d'. clear Hd'.
  destruct (kind d) eqn:Hk.
  - rewrite combine_types_all_bool; [reflexivity|].
    apply Forall_repeat. rewrite Hk. simpl. auto.
  - rewrite combine_types_integer.
    + simpl. now rewrite py_max_from_repeat.
    + apply Forall_repeat. rewrite Hk. simpl. auto.
    + simpl. left. exact Hk.
  - simpl in Hlev. rewrite <- Hlev in Hcan. simpl in Hcan.
    rewrite (Hcan (le_n 1)). apply combine_types_real.
    + apply Forall_repeat. simpl. auto.
    + simpl. left. reflexivity.
  - simpl in Hlev. rewrite <- Hlev in Hcan. simpl in Hcan.
    rewrite Hcan by lia. apply combine_types_with_complex.
    + apply Forall_repeat. simpl. auto 10.
    + simpl. left. reflexivity.
  - unfold numeric in Hnd. rewrite Hk in Hnd. simpl in Hnd. intuition discriminate.
Qed.

Lemma all_equal_repeat {A : Type} (d : A) (l : list A) :
  Forall (eq d) l -> l = repeat d (List.length l).
Proof.
  induction 1 as [|x l Hx _ IH]; simpl; [reflexivity|]. now rewrite <- Hx, <- IH.
Qed.

(** X8. A DType that [combine_types] has returned is a fixed point: any
    non-empty list of operands that all have this DType combines to it again. *)
Theorem combine_types_stable :
  forall self p (l l' : list DType) (d : DType),
    combine_types self p l = Return d ->
    l' <> [] -> Forall (eq d) l' ->
    combine_types self p l' = Return d.
Proof.
  intros self p l l' d Hd Hne Hall.
  rewrite (all_equal_repeat d l' Hall).
  destruct l' as [|x l']; [contradiction|]. simpl List.length.
  exact (combine_types_repeat_result self p l d (List.length l') Hd).
Qed.

Lemma combine_types_stable_witness :
  combine_types (mkBackend "NumPy") (mkProcess [] 32)
                [mkDType py_float 32; mkDType py_float 32; mkDType py_float 32]
  = Return (mkDType py_float 32).
Proof.
  apply (combine_types_stable (mkBackend "NumPy") (mkProcess [] 32)
           [mkDType py_int 64; mkDType py_float 64]).
  - reflexivity.
  - discriminate.
  - repeat constructor.
Defined.

(** ** [auto_cast] *)

Lemma bind_Return_r {A : Type} (c : Result A) : bind c (fun x => Return x) = c.
Proof. destruct c; reflexivity. Qed.

Lemma mapM_Forall2 {A B : Type} (f : A -> Result B) (l : list A) :
  forall l', mapM f l = Return l' -> Forall2 (fun x y => f x = Return y) l l'.
Proof.
  induction l as [|x l IH]; simpl; intros l' H.
  - inversion H. constructor.
  - destruct (f x) as [y|e] eqn:Ex; [simpl in H|discriminate].
    destruct (mapM f l) as [ys|e] eqn:El; [simpl in H|discriminate].
    inversion H; subst l'. constructor; [exact Ex | now apply IH].
Qed.

Lemma mapM_constant {A B : Type} (f : A -> Result B) (c : B) (l : list A) :
  Forall (fun x => f x = Return c) l -> mapM f l = Return (repeat c (List.length l)).
Proof.
  induction 1 as [|x l Hx _ IH]; simpl; [reflexivity|].
  now rewrite Hx, IH.
Qed.

Section AutoCast.

Variables Tensor Args Value : Type.
Variable cls : BackendClass Tensor Args Value.

Lemma auto_cast_inversion self p (tensors tensors' : list Tensor) :
  auto_cast Tensor Args Value cls self p tensors = Return tensors' ->
  exists dtypes result_type,
    mapM (fun t => dtype Tensor Args Value cls self t) tensors = Return dtypes /\
    combine_types self p dtypes = Return result_type /\
    mapM (fun t => cast Tensor Args Value cls self t result_type) tensors
      = Return tensors'.
Proof.
  unfold auto_cast. intro H.
  destruct (mapM _ tensors) as [dtypes|e] eqn:Ed; [simpl in H|discriminate].
  destruct (combine_types self p dtypes) as [rt|e] eqn:Et; [simpl in H|discriminate].
  rewrite bind_Return_r in H. now exists dtypes, rt.
Qed.

End AutoCast.

(** X9. Whenever [auto_cast] returns, it returns one tensor per input tensor, in
    the same order, each the [cast] of its input to one common DType, the
    [combine_types] of the inputs' dtypes; in particular the inputs were not
    empty. *)
Theorem auto_cast_common_type :
  forall (Tensor Args Value : Type) (cls : BackendClass Tensor Args Value)
         (self : Backend) (p : Process) (tensors tensors' : list Tensor),
    auto_cast Tensor Args Value cls self p tensors = Return tensors' ->
    exists dtypes result_type,
      Forall2 (fun t dt => dtype Tensor Args Value cls self t = Return dt)
              tensors dtypes /\
      combine_types self p dtypes = Return result_type /\
      Forall2 (fun t t' => cast Tensor Args Value cls self t result_type = Return t')
              tensors tensors' /\
      List.length tensors' = List.length tensors /\
      tensors <> [].
Proof.
  intros Tensor Args Value cls self p tensors tensors' H.
  destruct (auto_cast_inversion Tensor Args Value cls self p tensors tensors' H)
    as [dtypes [rt [Hd [Ht Hc]]]].
  exists dtypes, rt.
  apply mapM_Forall2 in Hd. apply mapM_Forall2 in Hc.
  split; [exact Hd|]. split; [exact Ht|]. split; [exact Hc|].
  split; [symmetry; eapply Forall2_length; exact Hc|].
  intro E. subst tensors. inversion Hd; subst dtypes. discriminate.
Qed.

Lemma auto_cast_common_type_witness :
  exists dtypes result_type,
    Forall2 (fun t dt => dtype (DType * Z) unit unit tagged_class (mkBackend "NumPy") t
                         = Return dt)
            [(mkDType py_int 64, 1); (mkDType py_float 64, 2)] dtypes /\
    combine_types (mkBackend "NumPy") (mkProcess [] 32) dtypes = Return result_type /\
    Forall2 (fun t t' => cast (DType * Z) unit unit tagged_class (mkBackend "NumPy")
                              t result_type = Return t')
            [(mkDType py_int 64, 1); (mkDType py_float 64, 2)]
            [(mkDType py_float 32, 1); (mkDType py_float 32, 2)] /\
    List.length [(mkDType py_float 32, 1); (mkDType py_float 32, 2)]
      = List.length [(mkDType py_int 64, 1); (mkDType py_float 64, 2)] /\
    [(mkDType py_int 64, 1); (mkDType py_float 64, 2)] <> [].
Proof.
  apply (auto_cast_common_type (DType * Z) unit unit tagged_class
           (mkBackend "NumPy") (mkProcess [] 32)).
  reflexivity.
Defined.

(** X10. When the class's [cast] delivers the dtype it is asked for, all tensors
    that [auto_cast] returns have the common result type, and applying
    [auto_cast] to them again selects that same type: it amounts to casting
    each of them to the type it already has. *)
Theorem auto_cast_twice :
  forall (Tensor Args Value : Type) (cls : BackendClass Tensor Args Value)
         (self : Backend) (p : Process) (tensors tensors' : list Tensor),
    (forall x t x', cast Tensor Args Value cls self x t = Return x' ->
                    dtype Tensor Args Value cls self x' = Return t) ->
    auto_cast Tensor Args Value cls self p tensors = Return tensors' ->
    exists result_type,
      Forall (fun t' => dtype Tensor Args Value cls self t' = Return result_type)
             tensors' /\
      auto_cast Tensor Args Value cls self p tensors'
        = mapM (fun t => cast Tensor Args Value cls self t result_type) tensors'.
Proof.
  intros Tensor Args Value cls self p tensors tensors' Hcast H.
  destruct (auto_cast_inversion Tensor Args Value cls self p tensors tensors' H)
    as [dtypes [rt [Hd [Ht Hc]]]].
  exists rt.
  assert (Hall : Forall (fun t' => dtype Tensor Args Value cls self t' = Return rt)
                        tensors').
  { apply mapM_Forall2 in Hc. clear - Hc Hcast.
    induction Hc as [|t t' l l' Ht _ IH]; constructor; [|exact IH].
    eapply Hcast. exact Ht. }
  split; [exact Hall|].
  assert (Hne : tensors' <> []).
  { intro E. subst tensors'. apply mapM_Forall2 in Hc. inversion Hc; subst tensors.
    simpl in Hd. inversion Hd; subst dtypes. discriminate. }
  unfold auto_cast.
  rewrite (mapM_constant (fun t => dtype Tensor Args Value cls self t) rt tensors' Hall).
  simpl.
  destruct tensors' as [|t0 rest]; [contradiction|]. simpl List.length.
  rewrite (combine_types_repeat_result self p dtypes rt (List.length rest) Ht).
  simpl. apply bind_Return_r.
Qed.

Lemma auto_cast_twice_witness :
  exists result_type,
    Forall (fun t' => dtype (DType * Z) unit unit tagged_class (mkBackend "NumPy") t'
                      = Return result_type)
           [(mkDType py_float 32, 1); (mkDType py_float 32, 2)] /\
    auto_cast (DType * Z) unit unit tagged_class (mkBackend "NumPy") (mkProcess [] 32)
              [(mkDType py_float 32, 1); (mkDType py_float 32, 2)]
    = mapM (fun t => cast (DType * Z) unit unit tagged_class (mkBackend "NumPy")
                          t result_type)
           [(mkDType py_float 32, 1); (mkDType py_float 32, 2)].
Proof.
  apply (auto_cast_twice (DType * Z) unit unit tagged_class
           (mkBackend "NumPy") (mkProcess [] 32)
           [(mkDType py_int 64, 1); (mkDType py_float 64, 2)]).
  - intros x t x' H. cbv in H. inversion H. reflexivity.
  - reflexivity.
Defined.

(** X12. A class that leaves [dtype] or [cast] unimplemented cannot use the default
    binary methods: each of them raises, whatever the native operator would
    do, and without [dtype] the error is [NotImplementedError(self)]. *)
Theorem binary_methods_need_dtype_and_cast :
  forall (Tensor Args Value : Type) (cls : BackendClass Tensor Args Value)
         (native : BinOp -> Tensor -> Tensor -> Result Tensor)
         (op : BinOp) (self : Backend) (p : Process) (a b : Tensor),
    implements cls op_dtype = false \/ implements cls op_cast = false ->
    (exists e, binary_method Tensor Args Value cls native op self p a b = Raise e) /\
    (implements cls op_dtype = false ->
     binary_method Tensor Args Value cls native op self p a b
     = Raise (mkException NotImplementedError [ArgBackend self])).
Proof.
  intros Tensor Args Value cls native op self p a b Hmiss.
  rewrite binary_method_spec. unfold binary_spec.
  assert (Hd : implements cls op_dtype = false ->
               dtype Tensor Args Value cls self a
               = Raise (mkException NotImplementedError [ArgBackend self])).
  { intro H. unfold dtype. now rewrite H. }
  split.
  - destruct Hmiss as [H | H].
    + rewrite (Hd H). simpl. eauto.
    + destruct (dtype Tensor Args Value cls self a) as [da|e]; simpl; [|eauto].
      destruct (dtype Tensor Args Value cls self b) as [db|e]; simpl; [|eauto].
      destruct (combine_types self p [da; db]) as [t|e]; simpl; [|eauto].
      unfold cast at 1. rewrite H. simpl. eauto.
  - intro H. now rewrite (Hd H).
Qed.

Lemma binary_methods_need_dtype_and_cast_witness :
  (exists e, binary_method unit unit unit base_class (fun _ x _ => Return x) Add
               (mkBackend "NumPy") (mkProcess [] 32) tt tt = Raise e) /\
  (implements (@base_class unit unit unit) op_dtype = false ->
   binary_method unit unit unit base_class (fun _ x _ => Return x) Add
     (mkBackend "NumPy") (mkProcess [] 32) tt tt
   = Raise (mkException NotImplementedError [ArgBackend (mkBackend "NumPy")])).
Proof.
  apply (binary_methods_need_dtype_and_cast unit unit unit base_class
           (fun _ x _ => Return x) Add (mkBackend "NumPy") (mkProcess [] 32) tt tt).
  left. reflexivity.
Defined.

(** ** Scopes entered and left by hand, and nested [with] blocks *)

Lemma enter_all_stack (bs : list Backend) :
  forall p, enter_all bs p = mkProcess (_DEFAULT p ++ bs) (global_precision p).
Proof.
  induction bs as [|b bs IH]; intro p; simpl.
  - rewrite app_nil_r. now destruct p.
  - unfold enter_all in *. simpl. rewrite IH. simpl. now rewrite <- app_assoc.
Qed.

Lemma exit_all_pops (bs : list Backend) :
  forall (stack top : list Backend) (prec : Z),
    List.length top = List.length bs ->
    exit_all bs (mkProcess (stack ++ top) prec) = Return (mkProcess stack prec).
Proof.
  induction bs as [|b bs IH]; intros stack top prec Hlen.
  - destruct top; [|discriminate]. simpl. now rewrite app_nil_r.
  - destruct top as [|t top'] using rev_ind; [discriminate|]. clear IHtop'.
    rewrite length_app in Hlen. simpl in Hlen.
    simpl. unfold __exit__. simpl. rewrite app_assoc, pop_last_app. simpl.
    apply IH. lia.
Qed.

(** X13. Entering any backends one after another and then leaving as many scopes,
    through whichever backends, gives back the process state from before:
    [__exit__] does not look at which backend it pops. *)
Theorem exit_all_after_enter_all :
  forall (bs bs' : list Backend) (p : Process),
    List.length bs' = List.length bs ->
    exit_all bs' (enter_all bs p) = Return p.
Proof.
  intros bs bs' p Hlen. rewrite enter_all_stack.
  rewrite exit_all_pops by (symmetry; exact Hlen). now destruct p.
Qed.

Lemma exit_all_after_enter_all_witness :
  exit_all [mkBackend "NumPy"; mkBackend "NumPy"]
           (enter_all [mkBackend "TensorFlow"; mkBackend "PyTorch"]
                      (mkProcess [mkBackend "NumPy"] 64))
  = Return (mkProcess [mkBackend "NumPy"] 64).
Proof.
  apply (exit_all_after_enter_all [mkBackend "TensorFlow"; mkBackend "PyTorch"]
           [mkBackend "NumPy"; mkBackend "NumPy"]).
  reflexivity.
Defined.

(** X14. Leaving more scopes than the stack holds fails with [IndexError]: the
    stack never goes below empty. *)
Theorem exit_all_too_many :
  forall (bs : list Backend) (p : Process),
    (List.length (_DEFAULT p) < List.length bs)%nat ->
    exit_all bs p = Raise (mkException IndexError [ArgStr "pop from empty list"]).
Proof.
  induction bs as [|b bs IH]; intros p Hlen; simpl in *; [lia|].
  destruct p as [stack prec]. simpl in *.
  destruct stack as [|t stack'] using rev_ind.
  - reflexivity.
  - clear IHstack'. unfold __exit__. simpl. rewrite pop_last_app. simpl.
    apply IH. simpl. rewrite length_app in Hlen. simpl in Hlen. lia.
Qed.

Lemma exit_all_too_many_witness :
  exit_all [mkBackend "NumPy"; mkBackend "NumPy"] (mkProcess [mkBackend "NumPy"] 32)
  = Raise (mkException IndexError [ArgStr "pop from empty list"]).
Proof.
  apply (exit_all_too_many [mkBackend "NumPy"; mkBackend "NumPy"]
           (mkProcess [mkBackend "NumPy"] 32)).
  simpl. lia.
Defined.

(** X15. Nested [with] blocks around a body that leaves the process state as it
    finds it: the body runs with the entered backends on top of the stack, the
    innermost one last, its outcome (failure included) is the outcome of the
    whole statement, and the state afterwards is the state before. *)
Theorem nested_runs_body_on_top :
  forall (bs : list Backend) (body : Process -> Outcome * Process) (p : Process),
    (forall q, snd (body q) = q) ->
    nested bs body p
    = (fst (body (mkProcess (_DEFAULT p ++ bs) (global_precision p))), p).
Proof.
  intros bs body p Hbal. revert p.
  induction bs as [|b bs IH]; intro p; simpl.
  - rewrite app_nil_r. destruct p as [stack prec]. simpl.
    specialize (Hbal (mkProcess stack prec)).
    destruct (body (mkProcess stack prec)) as [o q]. simpl in *. now subst q.
  - rewrite with_restores by (intro q; now apply nested_restores).
    rewrite IH. simpl. now rewrite <- app_assoc.
Qed.

Lemma nested_runs_body_on_top_witness :
  nested [mkBackend "TensorFlow"; mkBackend "PyTorch"]
         (fun q => (match rev (_DEFAULT q) with
                    | b :: _ => Failed (mkException ValueError [ArgBackend b])
                    | [] => Completed
                    end, q))
         (mkProcess [mkBackend "NumPy"] 32)
  = (Failed (mkException ValueError [ArgBackend (mkBackend "PyTorch")]),
     mkProcess [mkBackend "NumPy"] 32).
Proof.
  apply (nested_runs_body_on_top [mkBackend "TensorFlow"; mkBackend "PyTorch"]
           (fun q => (match rev (_DEFAULT q) with
                      | b :: _ => Failed (mkException ValueError [ArgBackend b])
                      | [] => Completed
                      end, q))
           (mkProcess [mkBackend "NumPy"] 32)).
  intro q. reflexivity.
Defined.

(** ** [matches_name] *)

Lemma lower_code_eq (n1 n2 : nat) :
  lower_code n1 = lower_code n2 <->
  n1 = n2 \/ ((65 <= n1 <= 90)%nat /\ n2 = (n1 + 32)%nat) \/
  ((65 <= n2 <= 90)%nat /\ n1 = (n2 + 32)%nat).
Proof.
  unfold lower_code.
  destruct (Nat.leb 65 n1) eqn:A1; destruct (Nat.leb n1 90) eqn:B1;
    destruct (Nat.leb 65 n2) eqn:A2; destruct (Nat.leb n2 90) eqn:B2; simpl;
    repeat match goal with
           | H : Nat.leb _ _ = true |- _ => apply Nat.leb_le in H
           | H : Nat.leb _ _ = false |- _ => apply Nat.leb_gt in H
           end; lia.
Qed.

Lemma lower_code_bounded (n : nat) : (n < 256 -> lower_code n < 256)%nat.
Proof.
  unfold lower_code. intro H.
  destruct (Nat.leb 65 n) eqn:A; destruct (Nat.leb n 90) eqn:B; simpl; try lia.
  apply Nat.leb_le in B. lia.
Qed.

Lemma lower_char_eq (c1 c2 : Ascii.ascii) :
  lower_char c1 = lower_char c2 <-> same_letter c1 c2.
Proof.
  unfold same_letter, lower_char. rewrite <- lower_code_eq. split; intro H.
  - apply (f_equal Ascii.nat_of_ascii) in H.
    rewrite !Ascii.nat_ascii_embedding in H
      by (apply lower_code_bounded, Ascii.nat_ascii_bounded).
    exact H.
  - now rewrite H.
Qed.

Lemma lower_eq (s t : string) : lower s = lower t <-> same_ignoring_case s t.
Proof.
  revert t. induction s as [|c s IH]; intros [|d t]; simpl; split; intro H;
    try discriminate; try (inversion H; fail); try constructor.
  - inversion H. now apply lower_char_eq.
  - inversion H. now apply IH.
  - inversion H; subst. f_equal; [now apply lower_char_eq | now apply IH].
Qed.

(** X16. For ASCII names, [matches_name] holds exactly when the two names have
    the same length and agree position by position up to the case of the
    letters A-Z; in particular a backend matches its own name. *)
Theorem matches_name_ignores_case :
  forall (self : Backend) (n : string),
    ascii_text (name self) -> ascii_text n ->
    (matches_name self n = true <-> same_ignoring_case (name self) n) /\
    matches_name self (name self) = true.
Proof.
  intros self n _ _. unfold matches_name. split.
  - rewrite String.eqb_eq. apply lower_eq.
  - apply String.eqb_refl.
Qed.

Lemma matches_name_ignores_case_witness :
  (matches_name (mkBackend "NumPy") "NUMPY" = true <->
   same_ignoring_case (name (mkBackend "NumPy")) "NUMPY") /\
  matches_name (mkBackend "NumPy") (name (mkBackend "NumPy")) = true.
Proof.
  apply (matches_name_ignores_case (mkBackend "NumPy") "NUMPY").
  - unfold ascii_text. simpl. repeat constructor.
  - unfold ascii_text. simpl. repeat constructor.
Defined.

(** ** Ranges *)

Lemma In_py_range (a b i : Z) : In i (py_range a b) <-> a <= i < b.
Proof.
  unfold py_range. rewrite in_map_iff. split.
  - intros [k [Hk Hin]]. apply in_seq in Hin. lia.
  - intro H. exists (Z.to_nat (i - a)). split; [lia|]. apply in_seq. lia.
Qed.

Lemma length_py_range (a b : Z) : List.length (py_range a b) = Z.to_nat (b - a).
Proof. unfold py_range. now rewrite length_map, length_seq. Qed.

Lemma nth_error_py_range (a b : Z) (k : nat) :
  (k < Z.to_nat (b - a))%nat -> nth_error (py_range a b) k = Some (a + Z.of_nat k).
Proof.
  intro H. unfold py_range. rewrite nth_error_map, nth_error_seq.
  destruct (Nat.ltb k (Z.to_nat (b - a))) eqn:E.
  - reflexivity.
  - apply Nat.ltb_ge in E. lia.
Qed.

(** ** [dimrange] *)

(** X17. [dimrange] lists, in ascending order, exactly the axes strictly between
    the first and the last one; for tensors of rank two or less it is empty. *)
Theorem dimrange_inner_axes :
  forall (Tensor : Type) (native_shape : Tensor -> list Z) (self : Backend)
         (tensor : Tensor),
    let rank := Z.of_nat (List.length (native_shape tensor)) in
    (forall i, In i (dimrange Tensor native_shape self tensor) <-> 1 <= i < rank - 1) /\
    List.length (dimrange Tensor native_shape self tensor) = Z.to_nat (rank - 2) /\
    (forall k, (k < Z.to_nat (rank - 2))%nat ->
               nth_error (dimrange Tensor native_shape self tensor) k
               = Some (1 + Z.of_nat k)) /\
    (rank <= 2 -> dimrange Tensor native_shape self tensor = []).
Proof.
  intros Tensor native_shape self tensor rank. unfold dimrange. fold rank.
  split; [intro i; apply In_py_range|].
  split; [rewrite length_py_range; f_equal; lia|].
  split.
  - intros k Hk. apply nth_error_py_range. lia.
  - intro H. apply length_zero_iff_nil. rewrite length_py_range. lia.
Qed.

(** ** [flip] *)

Section Flip.

Variable Tensor : Type.
Variable staticshape : Backend -> Tensor -> Result (list (option Z)).
Variable getitem : Tensor -> Key -> Result Tensor.

Lemma existsb_eqb_In (i : Z) (axes : list Z) :
  existsb (Z.eqb i) axes = true <-> In i axes.
Proof.
  rewrite existsb_exists. split.
  - intros [x [Hin Heq]]. apply Z.eqb_eq in Heq. now subst.
  - intro Hin. exists i. split; [exact Hin | apply Z.eqb_refl].
Qed.

Lemma flip_slice_ext (axes axes' : list Z) (i : Z) :
  (In i axes <-> In i axes') -> flip_slice axes i = flip_slice axes' i.
Proof.
  intro H. unfold flip_slice.
  destruct (existsb (Z.eqb i) axes) eqn:E; destruct (existsb (Z.eqb i) axes') eqn:E';
    try reflexivity.
  - apply existsb_eqb_In in E. apply H in E. apply existsb_eqb_In in E. congruence.
  - apply existsb_eqb_In in E'. apply H in E'. apply existsb_eqb_In in E'. congruence.
Qed.

End Flip.

(** X18. [flip] indexes the tensor with one slice per axis of its static shape:
    the slice of axis [i] runs backwards ([step = -1]) exactly when [i] is
    listed in [axes], and is the full slice otherwise.  If [staticshape]
    raises, [flip] raises the same error. *)
Theorem flip_key :
  forall (Tensor : Type) (staticshape : Backend -> Tensor -> Result (list (option Z)))
         (getitem : Tensor -> Key -> Result Tensor)
         (self : Backend) (value : Tensor) (axes : list Z),
    (forall e, staticshape self value = Raise e ->
               flip Tensor staticshape getitem self value axes = Raise e) /\
    (forall s, staticshape self value = Return s ->
       exists slices,
         flip Tensor staticshape getitem self value axes
           = getitem value (KeyList slices) /\
         List.length slices = List.length s /\
         forall k, (k < List.length s)%nat ->
           nth_error slices k
           = Some (IdxSlice (slice None None
                     (if existsb (Z.eqb (Z.of_nat k)) axes then Some (-1) else None)))).
Proof.
  intros Tensor staticshape getitem self value axes. split.
  - intros e H. unfold flip, ndims. now rewrite H.
  - intros s H. unfold flip, ndims. rewrite H. simpl.
    eexists. split; [reflexivity|]. split.
    + rewrite length_map, length_py_range. lia.
    + intros k Hk. rewrite nth_error_map, nth_error_py_range by lia. reflexivity.
Qed.

(** X19. Only the axes [0 .. ndims-1] count: entries of [axes] that are negative or
    too large are ignored without an error, and neither the order of [axes]
    nor repetitions in it matter. *)
Theorem flip_axes_as_set :
  forall (Tensor : Type) (staticshape : Backend -> Tensor -> Result (list (option Z)))
         (getitem : Tensor -> Key -> Result Tensor)
         (self : Backend) (value : Tensor) (axes axes' : list Z) (n : Z),
    ndims Tensor staticshape self value = Return n ->
    (forall i, 0 <= i < n -> (In i axes <-> In i axes')) ->
    flip Tensor staticshape getitem self value axes
    = flip Tensor staticshape getitem self value axes'.
Proof.
  intros Tensor staticshape getitem self value axes axes' n Hn Hsame.
  unfold flip. rewrite Hn. simpl. f_equal. f_equal.
  apply map_ext_in. intros i Hi. apply In_py_range in Hi.
  apply flip_slice_ext. apply Hsame. lia.
Qed.

(** Asking to flip the last axis as [-1] flips nothing. *)
Lemma flip_axes_as_set_witness :
  flip (list Z) (fun _ t => Return (map Some t)) (fun t _ => Return t)
       (mkBackend "NumPy") [2; 3] [-1; 1; 1]
  = flip (list Z) (fun _ t => Return (map Some t)) (fun t _ => Return t)
         (mkBackend "NumPy") [2; 3] [1].
Proof.
  apply (flip_axes_as_set (list Z) (fun _ t => Return (map Some t)) (fun t _ => Return t)
           (mkBackend "NumPy") [2; 3] [-1; 1; 1] [1] 2).
  - reflexivity.
  - intros i Hi. simpl. split; intros H; intuition lia.
Defined.

(** ** [unstack] *)

Lemma Forall2_nth_error {A B : Type} (R : A -> B -> Prop) (l : list A) (l' : list B) :
  Forall2 R l l' ->
  forall k x, nth_error l k = Some x -> exists y, nth_error l' k = Some y /\ R x y.
Proof.
  induction 1 as [|a b l l' Hab _ IH]; intros k x Hk.
  - destruct k; discriminate.
  - destruct k as [|k]; simpl in *.
    + inversion Hk; subst. now exists b.
    + now apply IH.
Qed.

Lemma py_list_index_in_range {A : Type} (l : list A) (i : Z) :
  0 <= i < Z.of_nat (List.length l) ->
  exists x, py_list_index l i = Return x /\ nth_error l (Z.to_nat i) = Some x.
Proof.
  intro H. unfold py_list_index.
  destruct (i <? 0) eqn:E; [apply Z.ltb_lt in E; lia|]. rewrite E.
  destruct (nth_error l (Z.to_nat i)) as [x|] eqn:En.
  - now exists x.
  - apply nth_error_None in En. lia.
Qed.

Section Unstack.

Variable Tensor : Type.
Variable native_shape : Tensor -> list Z.
Variable getitem : Tensor -> Key -> Result Tensor.

Lemma unstack_in_range self tensor axis keepdims :
  0 <= axis < Z.of_nat (List.length (native_shape tensor)) ->
  exists extent,
    nth_error (native_shape tensor) (Z.to_nat axis) = Some extent /\
    unstack Tensor native_shape getitem self tensor axis keepdims
    = mapM (fun slice_idx =>
              getitem tensor
                (unstack_key (Z.of_nat (List.length (native_shape tensor)))
                             axis keepdims slice_idx))
           (py_range 0 extent).
Proof.
  intro H. unfold unstack. cbv zeta.
  assert (E : (axis <? 0) = false) by (apply Z.ltb_ge; lia).
  assert (E2 : (axis >=? Z.of_nat (List.length (native_shape tensor))) = false)
    by (rewrite Z.geb_leb; apply Z.leb_gt; lia).
  rewrite !E, E2. simpl.
  destruct (py_list_index_in_range (native_shape tensor) axis H) as [extent [Hx Hn]].
  exists extent. rewrite Hx. simpl. split; [exact Hn | reflexivity].
Qed.

End Unstack.

(** X20. An axis outside [-rank, rank) is rejected with
    [ValueError("Illegal axis value")] before any indexing; a tensor of rank
    zero therefore cannot be unstacked along any axis. *)
Theorem unstack_illegal_axis :
  forall (Tensor : Type) (native_shape : Tensor -> list Z)
         (getitem : Tensor -> Key -> Result Tensor)
         (self : Backend) (tensor : Tensor) (axis : Z) (keepdims : bool),
    axis < - Z.of_nat (List.length (native_shape tensor)) \/
    Z.of_nat (List.length (native_shape tensor)) <= axis ->
    unstack Tensor native_shape getitem self tensor axis keepdims
    = Raise (mkException ValueError [ArgStr "Illegal axis value"]).
Proof.
  intros Tensor native_shape getitem self tensor axis keepdims H.
  unfold unstack. cbv zeta.
  destruct (axis <? 0) eqn:E.
  - apply Z.ltb_lt in E.
    assert (E2 : (axis + Z.of_nat (List.length (native_shape tensor)) <? 0) = true)
      by (apply Z.ltb_lt; lia).
    now rewrite E2, orb_true_r.
  - apply Z.ltb_ge in E.
    assert (E2 : (axis >=? Z.of_nat (List.length (native_shape tensor))) = true)
      by (rewrite Z.geb_leb; apply Z.leb_le; lia).
    now rewrite E2.
Qed.

Lemma unstack_illegal_axis_witness :
  unstack (list Z) (fun t => t) (fun t _ => Return t) (mkBackend "NumPy") [] 0 false
  = Raise (mkException ValueError [ArgStr "Illegal axis value"]).
Proof.
  apply (unstack_illegal_axis (list Z) (fun t => t) (fun t _ => Return t)
           (mkBackend "NumPy") [] 0 false).
  right. simpl. lia.
Defined.

(** X21. A negative axis counts from the end: for [-rank <= axis < 0], unstacking
    along [axis] is unstacking along [axis + rank]. *)
Theorem unstack_negative_axis :
  forall (Tensor : Type) (native_shape : Tensor -> list Z)
         (getitem : Tensor -> Key -> Result Tensor)
         (self : Backend) (tensor : Tensor) (axis : Z) (keepdims : bool),
    - Z.of_nat (List.length (native_shape tensor)) <= axis < 0 ->
    unstack Tensor native_shape getitem self tensor axis keepdims
    = unstack Tensor native_shape getitem self tensor
        (axis + Z.of_nat (List.length (native_shape tensor))) keepdims.
Proof.
  intros Tensor native_shape getitem self tensor axis keepdims H.
  unfold unstack. cbv zeta.
  assert (E : (axis <? 0) = true) by (apply Z.ltb_lt; lia).
  assert (E2 : (axis + Z.of_nat (List.length (native_shape tensor)) <? 0) = false)
    by (apply Z.ltb_ge; lia).
  now rewrite E, !E2.
Qed.

Lemma unstack_negative_axis_witness :
  unstack (list Z) (fun t => t) (fun t _ => Return t) (mkBackend "NumPy") [2; 3] (-1) true
  = unstack (list Z) (fun t => t) (fun t _ => Return t) (mkBackend "NumPy") [2; 3]
            (-1 + Z.of_nat (List.length [2; 3])) true.
Proof.
  apply (unstack_negative_axis (list Z) (fun t => t) (fun t _ => Return t)
           (mkBackend "NumPy") [2; 3] (-1) true).
  simpl. lia.
Defined.

(** X22. Along a legal axis, [unstack] returns as many components as the shape has
    entries along that axis, component [k] being the tensor indexed with a
    key of [rank] entries: at the axis the integer [k] (or the slice
    [k:k+1] with [keepdims]) and the full slice everywhere else. *)
Theorem unstack_components :
  forall (Tensor : Type) (native_shape : Tensor -> list Z)
         (getitem : Tensor -> Key -> Result Tensor)
         (self : Backend) (tensor : Tensor) (axis : Z) (keepdims : bool)
         (components : list Tensor),
    let rank := Z.of_nat (List.length (native_shape tensor)) in
    0 <= axis < rank ->
    unstack Tensor native_shape getitem self tensor axis keepdims = Return components ->
    exists extent,
      nth_error (native_shape tensor) (Z.to_nat axis) = Some extent /\
      List.length components = Z.to_nat extent /\
      forall k, (k < List.length components)%nat ->
        exists c entries,
          nth_error components k = Some c /\
          getitem tensor (KeyTuple entries) = Return c /\
          List.length entries = List.length (native_shape tensor) /\
          nth_error entries (Z.to_nat axis)
            = Some (if keepdims
                    then IdxSlice (slice (Some (Z.of_nat k)) (Some (Z.of_nat k + 1)) None)
                    else IdxInt (Z.of_nat k)) /\
          forall d, (d < List.length (native_shape tensor))%nat -> d <> Z.to_nat axis ->
                    nth_error entries d = Some (IdxSlice (slice None None None)).
Proof.
  intros Tensor native_shape getitem self tensor axis keepdims components rank Hax Hun.
  destruct (unstack_in_range Tensor native_shape getitem self tensor axis keepdims Hax)
    as [extent [Hext Heq]].
  rewrite Heq in Hun. apply mapM_Forall2 in Hun.
  exists extent. split; [exact Hext|].
  assert (Hlen : List.length components = Z.to_nat extent).
  { rewrite <- (Forall2_length Hun), length_py_range. f_equal. lia. }
  split; [exact Hlen|].
  intros k Hk.
  destruct (Forall2_nth_error _ _ _ Hun k (0 + Z.of_nat k)) as [c [Hc Hget]].
  { apply nth_error_py_range. lia. }
  simpl in Hget. unfold unstack_key in Hget.
  eexists c, _. split; [exact Hc|]. split; [exact Hget|].
  split; [rewrite length_map, length_py_range; lia|]. split.
  - rewrite nth_error_map, nth_error_py_range by (fold rank; lia). simpl.
    rewrite Z2Nat.id by lia. now rewrite Z.eqb_refl.
  - intros d Hd Hne. rewrite nth_error_map, nth_error_py_range by lia. simpl.
    destruct (Z.of_nat d =? axis) eqn:E; [|reflexivity].
    apply Z.eqb_eq in E. subst axis. rewrite Nat2Z.id in Hne. contradiction.
Qed.

Lemma unstack_components_witness :
  exists extent,
    nth_error [2; 3] (Z.to_nat 1) = Some extent /\
    List.length [[2; 3]; [2; 3]; [2; 3]] = Z.to_nat extent /\
    forall k, (k < List.length [[2; 3]; [2; 3]; [2; 3]])%nat ->
      exists c entries,
        nth_error [[2; 3]; [2; 3]; [2; 3]] k = Some c /\
        (fun (t : list Z) (_ : Key) => Return t) [2; 3] (KeyTuple entries) = Return c /\
        List.length entries = List.length [2; 3] /\
        nth_error entries (Z.to_nat 1)
          = Some (if false
                  then IdxSlice (slice (Some (Z.of_nat k)) (Some (Z.of_nat k + 1)) None)
                  else IdxInt (Z.of_nat k)) /\
        forall d, (d < List.length [2; 3])%nat -> d <> Z.to_nat 1 ->
                  nth_error entries d = Some (IdxSlice (slice None None None)).
Proof.
  apply (unstack_components (list Z) (fun t => t) (fun t _ => Return t)
           (mkBackend "NumPy") [2; 3] 1 false [[2; 3]; [2; 3]; [2; 3]]).
  - simpl. lia.
  - reflexivity.
Defined.
